(** * TapMap crawler core: a shallow embedding of [backend/crawler]

    Strings are Stdlib [string]s over ASCII.  Python's [Optional[str]] is
    [option string]; the truthiness test [not s] on such a value is
    [is_falsy_str].  Python exceptions that the crawler can meet are an
    explicit error result ([res]). *)

From Stdlib Require Import String Ascii List Bool ZArith Lia QArith.
From Stdlib Require Import Numbers.DecimalString.
Import ListNotations.
Open Scope string_scope.

(* ------------------------------------------------------------------ *)
(** ** Python string primitives *)

Module Py.

(** [str.lower] on ASCII. *)
Definition lower_char (c : ascii) : ascii :=
  let n := nat_of_ascii c in
  if (65 <=? n)%nat && (n <=? 90)%nat then ascii_of_nat (n + 32) else c.

Fixpoint lower (s : string) : string :=
  match s with
  | EmptyString => EmptyString
  | String c s' => String (lower_char c) (lower s')
  end.

Fixpoint is_prefix (p s : string) : bool :=
  match p, s with
  | EmptyString, _ => true
  | String a p', String b s' => Ascii.eqb a b && is_prefix p' s'
  | String _ _, EmptyString => false
  end.

(** [p in s] for strings. *)
Fixpoint contains (p s : string) : bool :=
  is_prefix p s ||
  match s with
  | EmptyString => false
  | String _ s' => contains p s'
  end.

(** [c in s] for a single character. *)
Fixpoint has_char (c : ascii) (s : string) : bool :=
  match s with
  | EmptyString => false
  | String d s' => Ascii.eqb c d || has_char c s'
  end.

(** [str.isspace] on one ASCII character: space, \t \n \v \f \r and
    \x1c..\x1f. *)
Definition is_space (c : ascii) : bool :=
  let n := nat_of_ascii c in
  (n =? 32)%nat || ((9 <=? n)%nat && (n <=? 13)%nat)
  || ((28 <=? n)%nat && (n <=? 31)%nat).

(** [not s.strip()]: the string is empty after stripping whitespace. *)
Fixpoint strip_is_empty (s : string) : bool :=
  match s with
  | EmptyString => true
  | String c s' => is_space c && strip_is_empty s'
  end.

(** [s.endswith(suffix)]. *)
Definition endswith (s suffix : string) : bool :=
  (String.length suffix <=? String.length s)%nat
  && String.eqb (substring (String.length s - String.length suffix) (String.length suffix) s)
       suffix.

(** Truthiness of an [Optional[str]]: [None] and the empty string are falsy. *)
Definition is_falsy_str (o : option string) : bool :=
  match o with
  | None | Some EmptyString => true
  | Some _ => false
  end.

(** Truthiness of an [Optional[list[str]]]. *)
Definition is_falsy_list {A} (o : option (list A)) : bool :=
  match o with
  | None | Some [] => true
  | Some _ => false
  end.

Definition Z_to_string (z : Z) : string :=
  NilEmpty.string_of_int (Z.to_int z).

(** [s.endswith(c)] for a one-character suffix. *)
Fixpoint ends_with_char (c : ascii) (s : string) : bool :=
  match s with
  | EmptyString => false
  | String d EmptyString => Ascii.eqb c d
  | String _ s' => ends_with_char c s'
  end.

(** [s.rstrip(chars)] for a character predicate. *)
Fixpoint rstrip_by (p : ascii -> bool) (s : string) : string :=
  match s with
  | EmptyString => EmptyString
  | String d s' =>
      let r := rstrip_by p s' in
      if String.eqb r EmptyString && p d then EmptyString
      else String d r
  end.

Definition rstrip_char (c : ascii) (s : string) : string :=
  rstrip_by (Ascii.eqb c) s.

(** [s.split(c, 1)] when [c in s]; [None] when [c] does not occur. *)
Fixpoint split1 (c : ascii) (s : string) : option (string * string) :=
  match s with
  | EmptyString => None
  | String d s' =>
      if Ascii.eqb c d then Some (EmptyString, s')
      else match split1 c s' with
           | Some (a, b) => Some (String d a, b)
           | None => None
           end
  end.

(** [(s[:i], s[i:])] where [i] is the first index whose character
    satisfies [p] ([len(s)] if none). *)
Fixpoint break_at (p : ascii -> bool) (s : string) : string * string :=
  match s with
  | EmptyString => (EmptyString, EmptyString)
  | String d s' =>
      if p d then (EmptyString, s)
      else let '(a, b) := break_at p s' in (String d a, b)
  end.

(** [(s[:j], s[j:])] for [j = s.rfind(c)], when [c in s]. *)
Fixpoint rsplit_last (c : ascii) (s : string) : option (string * string) :=
  match s with
  | EmptyString => None
  | String d s' =>
      match rsplit_last c s' with
      | Some (a, b) => Some (String d a, b)
      | None => if Ascii.eqb c d then Some (EmptyString, s) else None
      end
  end.

(** [s.lstrip(chars)] and [s.replace(c, <empty>)] for character predicates. *)
Fixpoint lstrip_by (p : ascii -> bool) (s : string) : string :=
  match s with
  | EmptyString => EmptyString
  | String d s' => if p d then lstrip_by p s' else s
  end.

Fixpoint remove_by (p : ascii -> bool) (s : string) : string :=
  match s with
  | EmptyString => EmptyString
  | String d s' => if p d then remove_by p s' else String d (remove_by p s')
  end.

(** [s.strip()]. *)
Definition strip (s : string) : string :=
  rstrip_by is_space (lstrip_by is_space s).

(** [s.splitlines()], breaking at every line-boundary character; a
    [\r\n] pair gives one extra empty line, which no caller here can see
    (empty lines are skipped). *)
Definition is_line_break (c : ascii) : bool :=
  let n := nat_of_ascii c in
  (n =? 10)%nat || (n =? 13)%nat || (n =? 11)%nat || (n =? 12)%nat
  || ((28 <=? n)%nat && (n <=? 30)%nat).

Fixpoint splitlines_acc (cur : string) (s : string) : list string :=
  match s with
  | EmptyString => if String.eqb cur EmptyString then [] else [cur]
  | String d s' =>
      if is_line_break d then cur :: splitlines_acc EmptyString s'
      else splitlines_acc (cur ++ String d EmptyString) s'
  end.

Definition splitlines (s : string) : list string := splitlines_acc EmptyString s.

Fixpoint forall_chars (p : ascii -> bool) (s : string) : bool :=
  match s with
  | EmptyString => true
  | String d s' => p d && forall_chars p s'
  end.

Definition mem_str (s : string) (l : list string) : bool :=
  existsb (String.eqb s) l.

(** The outcome of Python code that may raise: the exception is its
    message, [str(e)]. *)
Inductive res (A : Type) : Type :=
| Ok (a : A)
| Err (e : string).
Arguments Ok {A} a.
Arguments Err {A} e.

Definition bind {A B} (m : res A) (k : A -> res B) : res B :=
  match m with Ok a => k a | Err e => Err e end.

End Py.


(* ------------------------------------------------------------------ *)
(** ** [urllib.parse] (CPython 3.11), as far as the crawler uses it

    [urlsplit], [urlparse], [urlunsplit], [urlunparse] and [urldefrag]
    follow CPython 3.11's [Lib/urllib/parse.py] on ASCII input.  On ASCII
    input [_checknetloc] returns at once, so it is left out; the
    bracketed-host validation that later patch releases added to
    [urlsplit] only raises in more cases and is left out too. *)

Module Url.
Import Py.

Local Notation "x <- m ;; k" := (Py.bind m (fun x => k))
  (at level 61, m at next level, right associativity).

Definition is_alpha (c : ascii) : bool :=
  let n := nat_of_ascii c in
  ((65 <=? n)%nat && (n <=? 90)%nat) || ((97 <=? n)%nat && (n <=? 122)%nat).

Definition is_digit (c : ascii) : bool :=
  let n := nat_of_ascii c in (48 <=? n)%nat && (n <=? 57)%nat.

(** [scheme_chars]: letters, digits and ["+-."]. *)
Definition scheme_char (c : ascii) : bool :=
  is_alpha c || is_digit c || Ascii.eqb c "+" || Ascii.eqb c "-"
  || Ascii.eqb c ".".

(** [_WHATWG_C0_CONTROL_OR_SPACE]: [\x00] to [\x20]. *)
Definition c0_control_or_space (c : ascii) : bool :=
  (nat_of_ascii c <=? 32)%nat.

(** [_UNSAFE_URL_BYTES_TO_REMOVE]: tab, CR, LF. *)
Definition unsafe_url_byte (c : ascii) : bool :=
  let n := nat_of_ascii c in (n =? 9)%nat || (n =? 13)%nat || (n =? 10)%nat.

Definition netloc_delim (c : ascii) : bool :=
  Ascii.eqb c "/" || Ascii.eqb c "?" || Ascii.eqb c "#".

Record SplitResult := {
  sr_scheme : string; sr_netloc : string; sr_path : string;
  sr_query : string; sr_fragment : string }.

Record ParseResult := {
  pr_scheme : string; pr_netloc : string; pr_path : string;
  pr_params : string; pr_query : string; pr_fragment : string }.

Definition uses_netloc : list string :=
  [EmptyString; "ftp"; "http"; "gopher"; "nntp"; "telnet"; "imap"; "wais"; "file";
   "mms"; "https"; "shttp"; "snews"; "prospero"; "rtsp"; "rtsps"; "rtspu";
   "rsync"; "svn"; "svn+ssh"; "sftp"; "nfs"; "git"; "git+ssh"; "ws"; "wss";
   "itms-services"].

Definition uses_params : list string :=
  [EmptyString; "ftp"; "hdl"; "prospero"; "http"; "imap"; "https"; "shttp"; "rtsp";
   "rtsps"; "rtspu"; "sip"; "sips"; "mms"; "sftp"; "tel"].

(** Scheme detection of [urlsplit]: [i = url.find(':')], [i > 0],
    [url[0]] an ASCII letter and every [url[:i]] in [scheme_chars]. *)
Definition split_scheme (url : string) : string * string :=
  match split1 ":" url with
  | Some (pre, post) =>
      match pre with
      | String c _ =>
          if is_alpha c && forall_chars scheme_char pre then (lower pre, post)
          else (EmptyString, url)
      | EmptyString => (EmptyString, url)
      end
  | None => (EmptyString, url)
  end.

(** [if url[:2] == '//': netloc, url = _splitnetloc(url, 2)] and the
    bracket check that follows it. *)
Definition split_netloc (url2 : string) : res (string * string) :=
  if is_prefix "//" url2 then
    let '(netloc, rest) :=
      break_at netloc_delim (substring 2 (String.length url2) url2) in
    if (has_char "[" netloc && negb (has_char "]" netloc))
       || (has_char "]" netloc && negb (has_char "[" netloc))
    then Err "Invalid IPv6 URL"
    else Ok (netloc, rest)
  else Ok (EmptyString, url2).

Definition urlsplit (url0 : string) : res SplitResult :=
  let url1 := remove_by unsafe_url_byte (lstrip_by c0_control_or_space url0) in
  let '(scheme, url2) := split_scheme url1 in
  nr <- split_netloc url2 ;;
  let '(netloc, url3) := nr in
  let '(url4, fragment) :=
    match split1 "#" url3 with Some p => p | None => (url3, EmptyString) end in
  let '(path, query) :=
    match split1 "?" url4 with Some p => p | None => (url4, EmptyString) end in
  Ok {| sr_scheme := scheme; sr_netloc := netloc; sr_path := path;
        sr_query := query; sr_fragment := fragment |}.

(** [_splitparams]: the [;] searched from the last [/] on. *)
Definition _splitparams (url : string) : string * string :=
  if has_char "/" url then
    match rsplit_last "/" url with
    | Some (pre, seg) =>
        match split1 ";" seg with
        | Some (a, b) => (pre ++ a, b)
        | None => (url, EmptyString)
        end
    | None => (url, EmptyString)
    end
  else
    match split1 ";" url with
    | Some (a, b) => (a, b)
    | None => (url, EmptyString)
    end.

Definition urlparse (url0 : string) : res ParseResult :=
  sr <- urlsplit url0 ;;
  let '(path, params) :=
    if mem_str (sr_scheme sr) uses_params && has_char ";" (sr_path sr)
    then _splitparams (sr_path sr) else (sr_path sr, EmptyString) in
  Ok {| pr_scheme := sr_scheme sr; pr_netloc := sr_netloc sr;
        pr_path := path; pr_params := params; pr_query := sr_query sr;
        pr_fragment := sr_fragment sr |}.

Definition urlunsplit (scheme netloc url query fragment : string) : string :=
  let url1 :=
    if negb (String.eqb netloc EmptyString)
       || (negb (String.eqb scheme EmptyString) && mem_str scheme uses_netloc
           && negb (is_prefix "//" url))
    then
      let u := if negb (String.eqb url EmptyString) && negb (is_prefix "/" url)
               then "/" ++ url else url in
      "//" ++ netloc ++ u
    else url in
  let url2 := if String.eqb scheme EmptyString then url1 else scheme ++ ":" ++ url1 in
  let url3 := if String.eqb query EmptyString then url2 else url2 ++ "?" ++ query in
  if String.eqb fragment EmptyString then url3 else url3 ++ "#" ++ fragment.

Definition urlunparse (scheme netloc url params query fragment : string)
    : string :=
  let url' := if String.eqb params EmptyString then url else url ++ ";" ++ params in
  urlunsplit scheme netloc url' query fragment.

(** [urldefrag(url).url]. *)
Definition urldefrag (url : string) : res string :=
  if has_char "#" url then
    pr <- urlparse url ;;
    Ok (urlunparse (pr_scheme pr) (pr_netloc pr) (pr_path pr) (pr_params pr)
          (pr_query pr) EmptyString)
  else Ok url.

End Url.

(* ------------------------------------------------------------------ *)
(** ** Data model ([crawler/models.py], [crawler/consent.py],
    [config.py], [api/scans.py]) *)

Module Models.
Import Py.

(** A Python [float]: a finite value, an infinity or NaN (pydantic's
    [float] accepts all of them, also from a JSON body). *)
Inductive PyFloat :=
| FFinite (q : Q)
| FPosInf
| FNegInf
| FNaN.

(** [v < w] on floats: false as soon as one side is NaN. *)
Definition float_lt (v w : PyFloat) : bool :=
  match v, w with
  | FNaN, _ | _, FNaN => false
  | FFinite a, FFinite b => negb (Qle_bool b a)
  | FFinite _, FPosInf => true
  | FFinite _, FNegInf => false
  | FNegInf, FNegInf => false
  | FNegInf, _ => true
  | FPosInf, _ => false
  end.

(** [ScanConfig]: exactly the four fields the model declares. *)
Record ScanConfig := {
  url : string; max_pages : Z; max_depth : Z; rate_limit : PyFloat }.

(** Construction through pydantic with the three validators.  Keyword
    arguments that are not declared fields are dropped (pydantic's default
    [extra="ignore"]); [_ignored_kwargs] is that tail of the call. *)
Definition mk_ScanConfig (url0 : string) (max_pages0 max_depth0 : Z)
    (rate_limit0 : PyFloat) (_ignored_kwargs : list (string * option (list string)))
    : ScanConfig :=
  {| url := url0;
     max_pages := Z.max 1 (Z.min max_pages0 1000);
     max_depth := Z.max 1 (Z.min max_depth0 20);
     rate_limit := if float_lt rate_limit0 (FFinite (1 # 2)) then FFinite (1 # 2)
                   else rate_limit0 |}.

(** [api/scans.py: ScanRequest] *)
Record ScanRequest := {
  req_url : string; req_max_pages : Z; req_max_depth : Z; req_rate_limit : PyFloat;
  req_tag_name : string; req_tag_keywords : option (list string) }.

(** The configuration built by [create_scan]:
    [ScanConfig(url=..., max_pages=..., max_depth=..., rate_limit=...,
    tag_name=body.tag_name, tag_keywords=body.tag_keywords)]. *)
Definition create_scan_config (body : ScanRequest) : ScanConfig :=
  mk_ScanConfig (req_url body) (req_max_pages body) (req_max_depth body)
    (req_rate_limit body)
    [("tag_name", Some [req_tag_name body]);
     ("tag_keywords", req_tag_keywords body)].

Record ElementResult := {
  page_url : string; page_title : option string; element_type : string;
  action_type : option string; element_text : option string;
  css_selector : option string; section_context : option string;
  container_context : string; is_above_fold : bool;
  target_url : option string; is_external : bool;
  pharma_context : option string; notes : option string }.

Record PageResult := {
  pr_url : string; title : option string; status_code : option Z;
  depth : Z; elements : list ElementResult; error : option string }.

Record CrawlProgress := {
  scan_id : string; pages_scanned : Z; total_pages_found : Z;
  current_url : option string; status : string }.

Record RobotsResult := {
  found : bool; allowed : bool; raw_content : option string;
  disallowed_paths : list string }.

Record ConsentResult := {
  detected : bool; action : string; framework : string;
  cr_notes : option string }.

(** [settings.user_agent] *)
Definition user_agent : string := "TapMapper/1.0 (pharma site audit tool)".

End Models.

(* ------------------------------------------------------------------ *)
(** ** What the browser and the network answer

    A page, once loaded, is described by what the crawler can observe of
    it through Playwright: the response, the final URL, the answers of the
    evaluated scripts and of the locators.  A static description: the
    crawler performs at most one successful dismissal click, after which
    it no longer inspects the banner. *)

Module Browser.

(** Answer of [page.query_selector(sel)] followed, where the code does
    so, by [el.is_visible()] and [el.click()]. *)
Inductive QueryOutcome :=
| QRaises                                  (* query_selector raises *)
| QNone                                    (* no element *)
| QElem (visible : bool) (click_ok : bool). (* click_ok = false: click raises *)

(** One match of [page.locator(tag).filter(has_text=text)]. *)
Record Candidate := {
  cand_visible : bool;
  cand_box : option (Q * Q);   (* bounding_box(): width, height *)
  cand_click_ok : bool }.

Record ConsentDom := {
  banner_visible : bool;       (* the script of _has_visible_consent_banner;
                                  false also when the evaluation raises *)
  query : string -> QueryOutcome;
  locate : string -> string -> list Candidate;   (* tag, text *)
  bypass_removed : option Z }. (* the DOM-bypass script; None: it raises *)

(** The globals probed by [DETECTION_JS]. *)
Record WindowGlobals := {
  dataLayer_is_array : bool; satellite_getVar_fn : bool; utag_truthy : bool;
  analytics_track_fn : bool; gtag_fn : bool; s_t_fn : bool; hj_fn : bool }.

(** One object returned by [EXTRACTION_JS]. *)
Record RawElement := {
  raw_element_type : string; raw_action_type : option string;
  raw_element_text : option string; raw_css_selector : option string;
  raw_section_context : option string; raw_container_context : string;
  raw_is_above_fold : bool; raw_target_url : option string;
  raw_is_external : bool }.

Record LoadedPage := {
  lp_status : Z;
  lp_final_url : string;                (* page.url after goto *)
  lp_content_type : string;             (* headers.get("content-type"), empty if absent *)
  lp_title : string;                    (* page.title() in _visit_page *)
  lp_title_reread : option string;      (* page.title() read again by
                                           extract_elements, after consent
                                           handling and EXTRACTION_JS;
                                           None: the call raises *)
  lp_consent : ConsentDom;
  lp_raw_elements : option (list RawElement);  (* None: evaluate raises *)
  lp_links : list string;               (* _extract_links *)
  lp_window : option WindowGlobals }.   (* None: evaluate raises *)

Inductive GotoOutcome :=
| GotoRaises (msg : string)
| GotoNoResponse
| GotoResponse (p : LoadedPage).

Inductive RobotsFetch :=
| RobotsRequestError                   (* httpx.RequestError *)
| RobotsHttp (status : Z) (text : string).

(** The network, and [RobotExclusionRulesParser().parse(text)]'s
    [is_allowed(user_agent, path)] of the third-party parser. *)
Record Net := {
  robots_fetch : string -> RobotsFetch;
  goto : string -> GotoOutcome;
  robots_is_allowed : string -> string -> string -> bool }.

End Browser.
(* ------------------------------------------------------------------ *)
(** ** Context classifier ([crawler/extractor.py]) *)

Module Extractor.
Import Py Models Browser.

(** [PHARMA_PATTERNS]: a dict, iterated in insertion order. *)
Definition PHARMA_PATTERNS : list (string * list string) := [
  ("isi", [
      "important safety information";
      "full prescribing information";
      "medication guide";
      "prescribing information";
      "safety information"]);
  ("adverse_event", [
      "report side effects";
      "adverse event";
      "medwatch";
      "report adverse";
      "side effect"]);
  ("patient_enrollment", [
      "patient support";
      "copay";
      "savings card";
      "savings program";
      "co-pay";
      "patient assistance";
      "enroll";
      "sign up for savings"]);
  ("hcp_gate", [
      "are you a healthcare professional";
      "for us healthcare professionals";
      "healthcare provider";
      "hcp portal";
      "for healthcare professionals";
      "i am a healthcare"]);
  ("fair_balance", [
      "indications and usage";
      "contraindications";
      "warnings and precautions";
      "boxed warning";
      "black box warning"])].

(** The nested [for category, patterns ... for pattern in patterns] scan:
    returns [category] at the first [pattern in text_lower]. *)
Fixpoint scan_patterns (patterns : list string) (text_lower : string) : bool :=
  match patterns with
  | [] => false
  | p :: ps => if contains p text_lower then true else scan_patterns ps text_lower
  end.

Fixpoint scan_categories (table : list (string * list string))
    (text_lower : string) : option string :=
  match table with
  | [] => None
  | (category, patterns) :: rest =>
      if scan_patterns patterns text_lower then Some category
      else scan_categories rest text_lower
  end.

Definition _detect_pharma_builtin (text url : option string) : option string :=
  match text with
  | None | Some EmptyString => None
  | Some t =>
      let text_lower := lower t in
      match scan_categories PHARMA_PATTERNS text_lower with
      | Some category => Some category
      | None =>
          match url with
          | None | Some EmptyString => None
          | Some u =>
              let url_lower := lower u in
              if contains "prescribing" url_lower || contains "/pi" url_lower
              then Some "isi"
              else if contains "medguide" url_lower
                      || contains "medication-guide" url_lower
              then Some "isi"
              else None
          end
      end
  end.

Fixpoint first_keyword (keywords : list string) (combined : string)
    : option string :=
  match keywords with
  | [] => None
  | keyword :: rest =>
      if contains (lower keyword) combined then Some keyword
      else first_keyword rest combined
  end.

Definition detect_tag_context (text url : option string) (tag_name : string)
    (keywords : option (list string)) : option string :=
  if String.eqb tag_name "Pharma" && is_falsy_list keywords then
    _detect_pharma_builtin text url
  else
    match keywords with
    | None | Some [] => None
    | Some kws =>
        let combined :=
          (if is_falsy_str text then EmptyString else
             match text with Some t => lower t | None => EmptyString end)
          ++ (if is_falsy_str url then EmptyString else
                match url with Some u => " " ++ lower u | None => EmptyString end) in
        if strip_is_empty combined then None
        else first_keyword kws combined
    end.

(** [extract_elements(page, page_url, tag_name, tag_keywords)]: every raw
    element of the extraction script, classified; the title given to each
    is [page.title() or None] read after the script, [None] when that read
    raises. *)
Definition extract_elements (p : LoadedPage) (page_url0 : string)
    (tag_name : string) (tag_keywords : option (list string))
    : list ElementResult :=
  match lp_raw_elements p with
  | None => []
  | Some raw_elements =>
      let page_title0 :=
        match lp_title_reread p with
        | Some t => if String.eqb t EmptyString then None else Some t
        | None => None
        end in
      map (fun raw =>
        {| page_url := page_url0; page_title := page_title0;
           element_type := raw_element_type raw;
           action_type := raw_action_type raw;
           element_text := raw_element_text raw;
           css_selector := raw_css_selector raw;
           section_context := raw_section_context raw;
           container_context := raw_container_context raw;
           is_above_fold := raw_is_above_fold raw;
           target_url := raw_target_url raw;
           is_external := raw_is_external raw;
           pharma_context :=
             detect_tag_context (raw_element_text raw) (raw_target_url raw)
               tag_name tag_keywords;
           notes := None |}) raw_elements
  end.

(** Reading of the classifier contract (spec 4.6), written from its
    words: built-in mode returns ["<category>:<matched phrase>"], custom
    mode ["custom:<matched keyword>"]. *)
Fixpoint spec_first_phrase (patterns : list string) (text_lower : string)
    : option string :=
  match patterns with
  | [] => None
  | p :: ps => if contains p text_lower then Some p
               else spec_first_phrase ps text_lower
  end.

Fixpoint spec_builtin_text (table : list (string * list string))
    (text_lower : string) : option string :=
  match table with
  | [] => None
  | (category, patterns) :: rest =>
      match spec_first_phrase patterns text_lower with
      | Some p => Some (category ++ ":" ++ p)
      | None => spec_builtin_text rest text_lower
      end
  end.

Definition spec_custom (text url : option string) (keywords : list string)
    : option string :=
  let combined := lower (match text with Some t => t | None => EmptyString end)
    ++ " " ++ lower (match url with Some u => u | None => EmptyString end) in
  match first_keyword keywords combined with
  | Some k => Some ("custom:" ++ k)
  | None => None
  end.

End Extractor.

(* ------------------------------------------------------------------ *)
(** ** Robots compliance checker ([crawler/robots.py]) *)

Module Robots.
Import Py Models Browser.

Local Notation "x <- m ;; k" := (Py.bind m (fun x => k))
  (at level 61, m at next level, right associativity).

Definition uses_relative : list string :=
  [EmptyString; "ftp"; "http"; "gopher"; "nntp"; "imap"; "wais"; "file"; "https";
   "shttp"; "mms"; "prospero"; "rtsp"; "rtsps"; "rtspu"; "sftp"; "svn";
   "svn+ssh"; "ws"; "wss"].

(** [urljoin(base, ref)] for a reference that is an absolute path without
    dot segments, query or fragment, such as ["/robots.txt"]. *)
Definition urljoin_abs_path (base ref : string) : res string :=
  if String.eqb base EmptyString then Ok ref else
  b <- Url.urlparse base ;;
  if negb (mem_str (Url.pr_scheme b) uses_relative) then Ok ref else
  let netloc :=
    if mem_str (Url.pr_scheme b) Url.uses_netloc then Url.pr_netloc b
    else EmptyString in
  Ok (Url.urlunparse (Url.pr_scheme b) netloc ref EmptyString EmptyString
        EmptyString).

(** The [Disallow:] values of the raw text. *)
Definition collect_disallowed (content : string) : list string :=
  flat_map (fun line0 =>
    let line := strip line0 in
    if is_prefix "disallow:" (lower line) then
      let p := match split1 ":" line with
               | Some (_, rest) => strip rest
               | None => EmptyString
               end in
      if String.eqb p EmptyString then [] else [p]
    else []) (splitlines content).

Definition not_found_result : RobotsResult :=
  {| found := false; allowed := true; raw_content := None;
     disallowed_paths := [] |}.

Definition check_robots_txt (net : Net) (base_url : string) (path : string)
    : res RobotsResult :=
  robots_url <- urljoin_abs_path base_url "/robots.txt" ;;
  match robots_fetch net robots_url with
  | RobotsRequestError => Ok not_found_result
  | RobotsHttp st content =>
      if (st =? 404)%Z then Ok not_found_result
      else if negb (st =? 200)%Z then Ok not_found_result
      else
        Ok {| found := true;
              allowed := robots_is_allowed net content user_agent path;
              raw_content := Some content;
              disallowed_paths := collect_disallowed content |}
  end.

(** A small rule matcher standing in for the third-party parser on
    simple files: the [Disallow:] prefixes of the file (all groups), a
    path being allowed iff no non-empty prefix matches it. *)
Definition simple_is_allowed (content _ua path : string) : bool :=
  negb (existsb (fun d => is_prefix d path) (collect_disallowed content)).

End Robots.

(* ------------------------------------------------------------------ *)
(** ** Analytics detector ([crawler/analytics.py]) *)

Module Analytics.
Import Browser.

Definition detection_js (w : WindowGlobals) : list string :=
  (if dataLayer_is_array w then ["GTM"] else [])
  ++ (if satellite_getVar_fn w then ["Adobe Launch"] else [])
  ++ (if utag_truthy w then ["Tealium"] else [])
  ++ (if analytics_track_fn w then ["Segment"] else [])
  ++ (if gtag_fn w then ["GA4"] else [])
  ++ (if s_t_fn w then ["Adobe Analytics"] else [])
  ++ (if hj_fn w then ["Hotjar"] else []).

Definition detect_analytics (p : LoadedPage) : list string :=
  match lp_window p with
  | None => []
  | Some w => detection_js w
  end.

End Analytics.

(* ------------------------------------------------------------------ *)
(** ** Consent resolver ([crawler/consent.py]) *)

Module Consent.
Import Py Models Browser.

(** The double-quote character, for the selectors that contain it. *)
Definition dq : string := String (ascii_of_nat 34) EmptyString.

(** [FRAMEWORK_SIGNATURES], in insertion order. *)
Definition FRAMEWORK_SIGNATURES : list (string * string) := [
  ("onetrust", "#onetrust-banner-sdk, .onetrust-pc-dark-filter, #ot-sdk-btn");
  ("trustarc", "#truste-consent-track, .truste_overlay, #consent_blackbar");
  ("cookiebot", "#CybotCookiebotDialog, .CybotCookiebotDialogActive");
  ("evidon", "#_evidon_banner, #_evidon-barrier-wrapper");
  ("quantcast", ".qc-cmp2-container, #qc-cmp2-ui");
  ("didomi", "#didomi-host, .didomi-popup-container")].

Definition ACCEPT_SELECTORS : list string := [
  "#onetrust-accept-btn-handler";
  "#truste-consent-button";
  "#CybotCookiebotDialogBodyLevelButtonLevelOptinAllowAll";
  "#CybotCookiebotDialogBodyButtonAccept";
  ".qc-cmp2-summary-buttons button:first-child";
  "#didomi-notice-agree-button";
  "#accept-all-cookies";
  "#accept-cookies";
  "#cookie-accept";
  "button[id*=" ++ dq ++ "accept" ++ dq ++ " i]";
  "button[id*=" ++ dq ++ "agree" ++ dq ++ " i]";
  "a[id*=" ++ dq ++ "accept" ++ dq ++ " i]"].

Definition ACCEPT_TEXT_PATTERNS : list string := [
  "accept all"; "accept cookies"; "accept"; "i agree"; "agree"; "allow all";
  "allow cookies"; "got it"; "ok"; "continue"; "i understand"].

Definition CLOSE_SELECTORS : list string := [
  "#onetrust-close-btn-container button";
  ".onetrust-close-btn-handler";
  "#truste-consent-close";
  "button[aria-label=" ++ dq ++ "Close" ++ dq ++ "]";
  "button[aria-label=" ++ dq ++ "close" ++ dq ++ "]";
  "button[aria-label=" ++ dq ++ "Dismiss" ++ dq ++ "]";
  ".cookie-banner-close";
  ".consent-close";
  "button.close[data-dismiss]"].

Definition CLOSE_TEXT_PATTERNS : list string := [
  "close"; "dismiss"; "no thanks"; "maybe later"; "continue without"; "x"].

Fixpoint detect_framework_in (d : ConsentDom) (sigs : list (string * string))
    : string :=
  match sigs with
  | [] => "unknown"
  | (name, selector) :: rest =>
      match query d selector with
      | QElem _ _ => name
      | QNone | QRaises => detect_framework_in d rest
      end
  end.

Definition detect_framework (d : ConsentDom) : string :=
  detect_framework_in d FRAMEWORK_SIGNATURES.

Fixpoint _try_click_selectors (d : ConsentDom) (selectors : list string)
    : bool :=
  match selectors with
  | [] => false
  | selector :: rest =>
      match query d selector with
      | QElem true true => true
      | _ => _try_click_selectors d rest
      end
  end.

(** The inner loops for one text: [Some true] after a click, [Some false]
    when a click raised (the [except] moves on to the next text), [None]
    when no candidate qualified. *)
Fixpoint scan_candidates (cands : list Candidate) : option bool :=
  match cands with
  | [] => None
  | c :: rest =>
      if cand_visible c then
        match cand_box c with
        | Some (w, h) =>
            if negb (Qle_bool w 30) && negb (Qle_bool h 15) then
              Some (cand_click_ok c)
            else scan_candidates rest
        | None => scan_candidates rest
        end
      else scan_candidates rest
  end.

Fixpoint scan_tags (d : ConsentDom) (tags : list string) (text : string)
    : option bool :=
  match tags with
  | [] => None
  | tag :: rest =>
      match scan_candidates (firstn 3 (locate d tag text)) with
      | Some b => Some b
      | None => scan_tags d rest text
      end
  end.

Fixpoint _try_click_text (d : ConsentDom) (patterns : list string) : bool :=
  match patterns with
  | [] => false
  | text :: rest =>
      match scan_tags d ["button"; "a"; "span"; "div"] text with
      | Some true => true
      | _ => _try_click_text d rest
      end
  end.

Definition _try_dom_bypass (d : ConsentDom) : bool :=
  match bypass_removed d with
  | Some removed => (0 <? removed)%Z
  | None => false
  end.

Definition handle_consent (d : ConsentDom) : ConsentResult :=
  if negb (banner_visible d) then
    {| detected := false; action := "none"; framework := "unknown";
       cr_notes := None |}
  else
    let fw := detect_framework d in
    if _try_click_selectors d ACCEPT_SELECTORS then
      {| detected := true; action := "accept_all"; framework := fw;
         cr_notes := None |}
    else if _try_click_text d ACCEPT_TEXT_PATTERNS then
      {| detected := true; action := "accept_all"; framework := fw;
         cr_notes := None |}
    else if _try_click_selectors d CLOSE_SELECTORS then
      {| detected := true; action := "close"; framework := fw;
         cr_notes := None |}
    else if _try_click_text d CLOSE_TEXT_PATTERNS then
      {| detected := true; action := "close"; framework := fw;
         cr_notes := None |}
    else if _try_dom_bypass d then
      {| detected := true; action := "bypass_css"; framework := fw;
         cr_notes := Some "Overlay removed via DOM manipulation" |}
    else
      {| detected := true; action := "failed"; framework := fw;
         cr_notes := Some "All dismissal strategies exhausted" |}.

(** The resolver contract (spec 4.4) read as a cascade: the strategies in
    priority order, each with the action it reports; the first that
    succeeds decides. *)
Definition strategies (d : ConsentDom) : list (bool * string) := [
  (_try_click_selectors d ACCEPT_SELECTORS, "accept_all");
  (_try_click_text d ACCEPT_TEXT_PATTERNS, "accept_all");
  (_try_click_selectors d CLOSE_SELECTORS, "close");
  (_try_click_text d CLOSE_TEXT_PATTERNS, "close");
  (_try_dom_bypass d, "bypass_css")].

Fixpoint first_success (l : list (bool * string)) : option string :=
  match l with
  | [] => None
  | (ok, act) :: rest => if ok then Some act else first_success rest
  end.

Definition resolve_spec (d : ConsentDom) : bool * string :=
  if negb (banner_visible d) then (false, "none")
  else match first_success (strategies d) with
       | Some act => (true, act)
       | None => (true, "failed")
       end.

End Consent.

(* ------------------------------------------------------------------ *)
(** ** Crawl engine ([crawler/engine.py])

    [CrawlEngine]'s attributes are the record [Engine].  [consent_calls]
    is instrumentation only: the URLs on which [handle_consent] ran, in
    order.  [asyncio.Queue] is a FIFO list, [visited] a list used only
    through membership.  The time budget of [asyncio.wait_for] is a
    number of loop iterations; when it runs out the loop stops with the
    pages collected so far.  The rate-limit sleep has no observable effect
    here and is left out. *)

Module Engine.
Import Py Models Browser.

Record Engine := {
  config : ScanConfig;
  base_domain : string;
  visited : list string;
  pages : list PageResult;
  queue : list (string * Z);
  progress : CrawlProgress;
  consent_result : option ConsentResult;
  total_elements : Z;
  consent_calls : list string }.

Definition set_queue (e : Engine) (q : list (string * Z)) : Engine :=
  {| config := config e; base_domain := base_domain e; visited := visited e;
     pages := pages e; queue := q; progress := progress e;
     consent_result := consent_result e; total_elements := total_elements e;
     consent_calls := consent_calls e |}.

Definition set_visited (e : Engine) (v : list string) : Engine :=
  {| config := config e; base_domain := base_domain e; visited := v;
     pages := pages e; queue := queue e; progress := progress e;
     consent_result := consent_result e; total_elements := total_elements e;
     consent_calls := consent_calls e |}.

Definition set_progress (e : Engine) (p : CrawlProgress) : Engine :=
  {| config := config e; base_domain := base_domain e; visited := visited e;
     pages := pages e; queue := queue e; progress := p;
     consent_result := consent_result e; total_elements := total_elements e;
     consent_calls := consent_calls e |}.

(** [self.consent_result = handle_consent(page)] on page [u]. *)
Definition record_consent (e : Engine) (u : string) (r : ConsentResult)
    : Engine :=
  {| config := config e; base_domain := base_domain e; visited := visited e;
     pages := pages e; queue := queue e; progress := progress e;
     consent_result := Some r; total_elements := total_elements e;
     consent_calls := (consent_calls e ++ [u])%list |}.

Definition with_status (p : CrawlProgress) (s : string) : CrawlProgress :=
  {| scan_id := scan_id p; pages_scanned := pages_scanned p;
     total_pages_found := total_pages_found p; current_url := current_url p;
     status := s |}.

Definition with_current_url (p : CrawlProgress) (u : string) : CrawlProgress :=
  {| scan_id := scan_id p; pages_scanned := pages_scanned p;
     total_pages_found := total_pages_found p; current_url := Some u;
     status := status p |}.

Definition with_scan_id (p : CrawlProgress) (s : string) : CrawlProgress :=
  {| scan_id := s; pages_scanned := pages_scanned p;
     total_pages_found := total_pages_found p; current_url := current_url p;
     status := status p |}.

(** [self.pages.append(result)] and the counters updated after it. *)
Definition append_page (e : Engine) (r : PageResult) : Engine :=
  let ps := (pages e ++ [r])%list in
  let p := progress e in
  {| config := config e; base_domain := base_domain e; visited := visited e;
     pages := ps; queue := queue e;
     progress := {| scan_id := scan_id p;
                    pages_scanned := Z.of_nat (length ps);
                    total_pages_found :=
                      Z.of_nat (length (visited e) + length (queue e));
                    current_url := current_url p; status := status p |};
     consent_result := consent_result e;
     total_elements := (total_elements e + Z.of_nat (length (elements r)))%Z;
     consent_calls := consent_calls e |}.

(** Methods that read and update [self] and may raise. *)
Definition M (A : Type) : Type := Engine -> Engine * res A.

Definition ret {A} (a : A) : M A := fun e => (e, Ok a).
Definition raise {A} (msg : string) : M A := fun e => (e, Err msg).
Definition lift {A} (r : res A) : M A := fun e => (e, r).
Definition gets {A} (f : Engine -> A) : M A := fun e => (e, Ok (f e)).
Definition modify (f : Engine -> Engine) : M unit := fun e => (f e, Ok tt).
Definition mbind {A B} (m : M A) (k : A -> M B) : M B :=
  fun e => let '(e', r) := m e in
           match r with Ok a => k a e' | Err msg => (e', Err msg) end.

Local Notation "x <- m ;; k" := (mbind m (fun x => k))
  (at level 61, m at next level, right associativity).
Local Notation "x <-? m ;; k" := (Py.bind m (fun x => k))
  (at level 61, m at next level, right associativity).

Definition _normalize_url (u : string) : res string :=
  match Url.urldefrag u with
  | Ok u1 => Ok (if ends_with_char "/" u1 then rstrip_char "/" u1 else u1)
  | Err msg => Err msg
  end.

Definition _is_same_domain (base : string) (u : string) : res bool :=
  p <-? Url.urlparse u ;;
  Ok (String.eqb (Url.pr_netloc p) base).

Definition skip_extensions : list string := [
  ".pdf"; ".jpg"; ".jpeg"; ".png"; ".gif"; ".svg"; ".webp";
  ".mp4"; ".mp3"; ".wav"; ".avi"; ".mov";
  ".zip"; ".tar"; ".gz"; ".rar";
  ".doc"; ".docx"; ".xls"; ".xlsx"; ".ppt"; ".pptx";
  ".css"; ".js"; ".json"; ".xml"; ".ico"].

Definition _is_crawlable (base : string) (u : string) : res bool :=
  p <-? Url.urlparse u ;;
  if negb (mem_str (Url.pr_scheme p) ["http"; "https"]) then Ok false else
  same <-? _is_same_domain base u ;;
  if negb same then Ok false else
  let path_lower := lower (Url.pr_path p) in
  Ok (negb (existsb (fun ext => endswith path_lower ext) skip_extensions)).

(** The [for link in links] loop of [_visit_page]. *)
Fixpoint enqueue_links (links : list string) (d : Z) : M unit :=
  match links with
  | [] => ret tt
  | link :: rest =>
      norm <- lift (_normalize_url link) ;;
      vis <- gets visited ;;
      base <- gets base_domain ;;
      ok <- (if mem_str norm vis then ret false
             else lift (_is_crawlable base norm)) ;;
      _ <- (if ok then modify (fun e => set_queue e (queue e ++ [(norm, (d + 1)%Z)])%list)
            else ret tt) ;;
      enqueue_links rest d
  end.

Definition error_page (u : string) (d : Z) (sc : option Z) (msg : string)
    : PageResult :=
  {| pr_url := u; title := None; status_code := sc; depth := d;
     elements := []; error := Some msg |}.

(** The [try] block of [_visit_page].  [extract_elements(page, url)]
    is called with its default [tag_name="Pharma"], [tag_keywords=None]. *)
Definition visit_body (net : Net) (u : string) (d : Z)
    (handle_consent_banner : bool) : M PageResult :=
  match goto net u with
  | GotoRaises msg => raise msg
  | GotoNoResponse => ret (error_page u d None "No response")
  | GotoResponse p =>
      let sc := lp_status p in
      if (400 <=? sc)%Z then
        ret (error_page u d (Some sc) ("HTTP " ++ Z_to_string sc))
      else
      base <- gets base_domain ;;
      same <- lift (_is_same_domain base (lp_final_url p)) ;;
      if negb same then
        ret (error_page u d (Some sc)
               ("Redirected off-domain to " ++ lp_final_url p))
      else
      let ct := lp_content_type p in
      if negb (String.eqb ct EmptyString) && negb (contains "html" (lower ct))
      then ret (error_page u d (Some sc) ("Non-HTML content: " ++ ct))
      else
      let t := lp_title p in
      _ <- (if handle_consent_banner then
              modify (fun e => record_consent e u
                                 (Consent.handle_consent (lp_consent p)))
            else ret tt) ;;
      let els := Extractor.extract_elements p u "Pharma" None in
      md <- gets (fun e => max_depth (config e)) ;;
      _ <- (if (d <? md)%Z then enqueue_links (lp_links p) d else ret tt) ;;
      ret {| pr_url := u;
             title := if String.eqb t EmptyString then None else Some t;
             status_code := Some sc; depth := d; elements := els;
             error := None |}
  end.

(** [_visit_page]: an exception becomes an error page; what the body did
    to [self] before raising stays done. *)
Definition _visit_page (net : Net) (u : string) (d : Z)
    (handle_consent_banner : bool) (e : Engine) : Engine * PageResult :=
  let '(e', r) := visit_body net u d handle_consent_banner e in
  (e', match r with
       | Ok pr => pr
       | Err msg => error_page u d None msg
       end).

Inductive StepOutcome :=
| Break (e : Engine)
| Continue (e : Engine) (consent_handled : bool)
| Raised (msg : string).

(** One iteration of the [while not self.queue.empty()] loop. *)
Definition loop_step (net : Net) (e : Engine) (consent_handled : bool)
    : StepOutcome :=
  match queue e with
  | [] => Break e
  | (u, d) :: q =>
      if (max_pages (config e) <=? Z.of_nat (length (pages e)))%Z then Break e
      else
      let e1 := set_queue e q in
      match _normalize_url u with
      | Err msg => Raised msg
      | Ok normalized =>
          if mem_str normalized (visited e1) then Continue e1 consent_handled
          else if (max_depth (config e1) <? d)%Z then
            Continue e1 consent_handled
          else
            let e2 := set_progress (set_visited e1 (visited e1 ++ [normalized])%list)
                        (with_current_url (progress e1) normalized) in
            let '(e3, result) :=
              _visit_page net normalized d (negb consent_handled) e2 in
            Continue (append_page e3 result) true
      end
  end.

Inductive LoopEnd :=
| Finished (e : Engine)
| TimedOut (e : Engine)
| LoopRaised (msg : string).

Fixpoint _crawl_loop (net : Net) (budget : nat) (e : Engine)
    (consent_handled : bool) : LoopEnd :=
  match budget with
  | O => TimedOut e
  | S b =>
      match loop_step net e consent_handled with
      | Break e' => Finished e'
      | Continue e' h => _crawl_loop net b e' h
      | Raised msg => LoopRaised msg
      end
  end.

Definition CrawlEngine_init (cfg : ScanConfig) : res Engine :=
  p <-? Url.urlparse (url cfg) ;;
  Ok {| config := cfg; base_domain := Url.pr_netloc p; visited := [];
        pages := []; queue := [];
        progress := {| scan_id := EmptyString; pages_scanned := 0%Z;
                       total_pages_found := 0%Z; current_url := None;
                       status := "running" |};
        consent_result := None; total_elements := 0%Z; consent_calls := [] |}.

Definition crawl (net : Net) (budget : nat) (scan_id0 : string) (e : Engine)
    : res (Engine * list PageResult) :=
  let e0 := set_progress e (with_scan_id (progress e) scan_id0) in
  robots <-? Robots.check_robots_txt net (url (config e0)) "/" ;;
  if negb (allowed robots) then
    Ok (set_progress e0 (with_status (progress e0) "blocked_by_robots"), [])
  else
  start_url <-? _normalize_url (url (config e0)) ;;
  let e1 := set_queue e0 (queue e0 ++ [(start_url, 0%Z)])%list in
  match _crawl_loop net budget e1 false with
  | LoopRaised msg => Err msg
  | TimedOut e2 =>
      let e3 := set_progress e2 (with_status (progress e2) "timeout") in
      Ok (e3, pages e3)
  | Finished e2 =>
      let e3 := if String.eqb (status (progress e2)) "running"
                then set_progress e2 (with_status (progress e2) "completed")
                else e2 in
      Ok (e3, pages e3)
  end.

(** [engine = CrawlEngine(config); pages = await engine.crawl(scan_id)]. *)
Definition run_crawl (net : Net) (budget : nat) (cfg : ScanConfig)
    (scan_id0 : string) : res (Engine * list PageResult) :=
  e <-? CrawlEngine_init cfg ;;
  crawl net budget scan_id0 e.

End Engine.

(* ------------------------------------------------------------------ *)
(** ** Scan API ([api/scans.py])

    Strings are ASCII here, as everywhere in this development; the
    database is the list of rows written, in order.  The timestamp of
    [_generate_scan_id] is an input (the clock). *)

Module ScansApi.
Import Py Models Browser Engine.

Local Notation "x <-? m ;; k" := (Py.bind m (fun x => k))
  (at level 61, m at next level, right associativity).

Fixpoint map_chars (f : ascii -> ascii) (s : string) : string :=
  match s with
  | EmptyString => EmptyString
  | String c s' => String (f c) (map_chars f s')
  end.

(** The class [[a-zA-Z0-9_-]]. *)
Definition scan_id_char (c : ascii) : bool :=
  Url.is_alpha c || Url.is_digit c || Ascii.eqb c "_" || Ascii.eqb c "-".

(** One match of [[^a-zA-Z0-9_-]] replaced by ["_"]. *)
Definition safe_char (c : ascii) : ascii :=
  if scan_id_char c then c else "_"%char.

Definition _generate_scan_id (timestamp domain : string) : string :=
  let safe_domain := substring 0 60 (map_chars safe_char domain) in
  timestamp ++ "_" ++ safe_domain.

(** [s.split(c)]: the pieces between the occurrences of [c], empty ones
    included. *)
Fixpoint split_on_acc (c : ascii) (cur : string) (s : string) : list string :=
  match s with
  | EmptyString => [cur]
  | String d s' =>
      if Ascii.eqb c d then cur :: split_on_acc c EmptyString s'
      else split_on_acc c (cur ++ String d EmptyString) s'
  end.

Definition split_on (c : ascii) (s : string) : list string :=
  split_on_acc c EmptyString s.

(** [excluded_types] of [get_scan]: [set()] unless [hide_types] is
    truthy, then [{t.strip().lower() for t in hide_types.split(",") if
    t.strip()}] (a list used through membership). *)
Definition excluded_types (hide_types : option string) : list string :=
  match hide_types with
  | None | Some EmptyString => []
  | Some h =>
      map (fun t => lower (strip t))
        (filter (fun t => negb (String.eqb (strip t) EmptyString)) (split_on "," h))
  end.

(** [type_counts[t] = type_counts.get(t, 0) + 1] on an insertion-ordered
    dict. *)
Fixpoint incr_count (t : string) (m : list (string * Z)) : list (string * Z) :=
  match m with
  | [] => [(t, 1%Z)]
  | (k, n) :: rest =>
      if String.eqb k t then (k, (n + 1)%Z) :: rest else (k, n) :: incr_count t rest
  end.

(** [type_counts.get(t, 0)]. *)
Fixpoint get_count (t : string) (m : list (string * Z)) : Z :=
  match m with
  | [] => 0%Z
  | (k, n) :: rest => if String.eqb k t then n else get_count t rest
  end.

Record ScanSummary := {
  sum_total_elements : Z; sum_by_type : list (string * Z);
  sum_pharma_flagged : Z; sum_tag_name : string }.

(** The loop over [all_elements] computing [type_counts] and
    [pharma_count]. *)
Definition count_rows (rows : list ElementResult) : list (string * Z) * Z :=
  fold_left (fun acc el =>
    let '(tc, pc) := acc in
    (incr_count (element_type el) tc,
     if is_falsy_str (pharma_context el) then pc else (pc + 1)%Z)) rows ([], 0%Z).

(** [get_scan] after its queries: [scan_found] is whether the scan row
    exists for this user, [rows] the element rows the query returned,
    [scan_tag_name] the stored [tag_name].  The stored analytics JSON is
    passed through and left out here. *)
Definition get_scan (scan_found : bool) (scan_tag_name : option string)
    (rows : list ElementResult) (hide_types : option string)
    : res (list ElementResult * ScanSummary) :=
  if negb scan_found then Err "404: Scan not found" else
  let ex := excluded_types hide_types in
  let '(type_counts, pharma_count) := count_rows rows in
  let element_list :=
    match ex with
    | [] => rows
    | _ :: _ => filter (fun el => negb (mem_str (lower (element_type el)) ex)) rows
    end in
  let tag_name := if is_falsy_str scan_tag_name then "Pharma"
                  else match scan_tag_name with Some t => t | None => "Pharma" end in
  Ok (element_list,
      {| sum_total_elements := Z.of_nat (length rows); sum_by_type := type_counts;
         sum_pharma_flagged := pharma_count; sum_tag_name := tag_name |}).

(** What [_run_scan] writes to the database, in order. *)
Inductive DbWrite :=
| SetScanStatus (s : string)
| SetScanResults (final_status : string) (pages_scanned total_pages : Z)
    (scan_quality : string) (consent_detected : Z)
    (consent_action consent_framework : option string)
    (robots_txt_found robots_txt_respected : Z)
    (analytics_detected : option (list string))
| InsertElement (el : ElementResult)
| SetScanFailed (notes : string).

(** [p.analytics]: [PageResult] declares no field [analytics], and the
    attribute lookup on the pydantic model raises [AttributeError]. *)
Definition page_analytics (p : PageResult) : res (list string) :=
  Err "'PageResult' object has no attribute 'analytics'".

Definition set_update (acc new : list string) : list string :=
  fold_left (fun a x => if mem_str x a then a else (a ++ [x])%list) new acc.

(** [for p in pages: all_analytics.update(p.analytics)] *)
Fixpoint collect_analytics (acc : list string) (ps : list PageResult)
    : res (list string) :=
  match ps with
  | [] => Ok acc
  | p :: rest =>
      a <-? page_analytics p ;;
      collect_analytics (set_update acc a) rest
  end.

Fixpoint insert_sorted (x : string) (l : list string) : list string :=
  match l with
  | [] => [x]
  | y :: rest => if String.leb x y then x :: l else y :: insert_sorted x rest
  end.

Definition sorted (l : list string) : list string := fold_right insert_sorted [] l.

Definition scan_quality_of (cr : option ConsentResult) : string :=
  match cr with
  | None => "clean"
  | Some r =>
      if String.eqb (action r) "failed" then "blocked_by_consent"
      else if String.eqb (action r) "bypass_css" then "partial_consent"
      else "clean"
  end.

(** [str(e).split("\n")[0][:200]] *)
Definition safe_msg (msg : string) : string :=
  substring 0 200 (hd EmptyString (split_on (ascii_of_nat 10) msg)).

(** [_run_scan(scan_id, config, username)]: [CrawlEngine(config)] runs
    before the [try], so an exception there ends the task with nothing
    written.  The duration and the log lines are left out. *)
Definition _run_scan (net : Net) (budget : nat) (scan_id0 : string)
    (cfg : ScanConfig) : res (list DbWrite) :=
  engine <-? CrawlEngine_init cfg ;;
  Ok (SetScanStatus "running" ::
      match crawl net budget scan_id0 engine with
      | Err msg => [SetScanFailed (safe_msg msg)]
      | Ok (e, pages0) =>
          let final_status :=
            if String.eqb (status (progress e)) "running" then "completed"
            else status (progress e) in
          let '(cd, ca, cf) :=
            match consent_result e with
            | Some r => (if detected r then 1%Z else 0%Z, Some (action r),
                         Some (framework r))
            | None => (0%Z, None, None)
            end in
          match collect_analytics [] pages0 with
          | Err msg => [SetScanFailed (safe_msg msg)]
          | Ok all_analytics =>
              SetScanResults final_status (Z.of_nat (length pages0))
                (Z.of_nat (length pages0)) (scan_quality_of (consent_result e))
                cd ca cf
                (if String.eqb (status (progress e)) "blocked_by_robots" then 0%Z
                 else 1%Z) 1%Z
                (match all_analytics with
                 | [] => None
                 | _ :: _ => Some (sorted all_analytics)
                 end)
              :: map InsertElement (flat_map elements pages0)
          end
      end).

End ScansApi.

Module ScanCounts.
Import Models.

Definition sumZ (l : list Z) : Z := fold_right Z.add 0%Z l.

(** The number of rows of element type [t]. *)
Definition rows_of_type (t : string) (rows : list ElementResult) : Z :=
  Z.of_nat (length (filter (fun el => String.eqb (element_type el) t) rows)).

End ScanCounts.

(* ------------------------------------------------------------------ *)
(** ** Relations and invariants of the engine state *)

Module CrawlRelations.
Import Py Models Browser Engine.

(** The part of the engine a visit may change: the queue grows by
    entries one level deeper, and [handle_consent] may have run. *)
Definition frame (d : Z) (e e' : Engine) : Prop :=
  config e' = config e /\ pages e' = pages e /\ visited e' = visited e /\
  base_domain e' = base_domain e /\
  exists new, queue e' = (queue e ++ new)%list /\
              Forall (fun x => snd x = (d + 1)%Z) new.

(** A relation between the engine before and after a method, kept by
    every run of it. *)
Definition preserves (P : Engine -> Engine -> Prop) {A} (m : M A) : Prop :=
  forall e, P e (fst (m e)).

Definition enqueue_rel (d : Z) (e e' : Engine) : Prop :=
  frame d e e' /\ consent_calls e' = consent_calls e.

(** What the part of a visit after the consent step does. *)
Definition tail_rel (d : Z) (e e' : Engine) : Prop :=
  enqueue_rel d e e' /\ (queue e' = queue e \/ (d < max_depth (config e))%Z).

Definition visit_rel (net : Net) (u : string) (d : Z) (h : bool)
    (e e' : Engine) : Prop :=
  frame d e e' /\ (queue e' = queue e \/ (d < max_depth (config e))%Z) /\
  (consent_calls e' = consent_calls e \/
   (h = true /\ consent_calls e' = (consent_calls e ++ [u])%list /\
    exists p, goto net u = GotoResponse p /\ (lp_status p < 400)%Z)).

(** The engine handed to [_visit_page] after [normalized] is marked
    visited. *)
Definition before_visit (e : Engine) (q : list (string * Z)) (n : string)
    : Engine :=
  set_progress (set_visited (set_queue e q) (visited e ++ [n])%list)
    (with_current_url (progress e) n).

(** Depth invariant: every recorded page and every queued entry has a
    depth in range. *)
Definition depth_inv (cfg : ScanConfig) (e : Engine) (_ : bool) : Prop :=
  config e = cfg /\
  Forall (fun p => (0 <= depth p <= max_depth cfg)%Z) (pages e) /\
  Forall (fun x => (0 <= snd x)%Z) (queue e).




(** Every element of every recorded page carries the classification of the
    built-in mode. *)
Definition builtin_classified (e : Engine) (_ : bool) : Prop :=
  Forall (fun p => Forall (fun el =>
     pharma_context el =
       Extractor.detect_tag_context (element_text el) (target_url el) "Pharma" None)
     (elements p)) (pages e).

(** The same sites, with the analytics globals of every loaded page
    replaced: [w u] is what [window] holds on the page loaded for [u]. *)
Definition set_window (w : option WindowGlobals) (p : LoadedPage) : LoadedPage :=
  {| lp_status := lp_status p; lp_final_url := lp_final_url p;
     lp_content_type := lp_content_type p; lp_title := lp_title p;
     lp_title_reread := lp_title_reread p; lp_consent := lp_consent p; lp_raw_elements := lp_raw_elements p;
     lp_links := lp_links p; lp_window := w |}.

Definition with_windows (w : string -> option WindowGlobals) (net : Net) : Net :=
  {| robots_fetch := robots_fetch net;
     goto := fun u => match goto net u with
                      | GotoResponse p => GotoResponse (set_window (w u) p)
                      | o => o
                      end;
     robots_is_allowed := robots_is_allowed net |}.

End CrawlRelations.

(* ------------------------------------------------------------------ *)
(** ** Scenario sites *)

Module Fixtures.
Import Py Models Browser Engine.

Definition no_consent : ConsentDom :=
  {| banner_visible := false; query := fun _ => QNone;
     locate := fun _ _ => []; bypass_removed := None |}.

(** A page whose [window] holds a GTM [dataLayer] array. *)
Definition gtm_window : WindowGlobals :=
  {| dataLayer_is_array := true; satellite_getVar_fn := false;
     utag_truthy := false; analytics_track_fn := false; gtag_fn := false;
     s_t_fn := false; hj_fn := false |}.

Definition text_link (t : string) : RawElement :=
  {| raw_element_type := "link"; raw_action_type := Some "navigation";
     raw_element_text := Some t; raw_css_selector := Some "a.policy";
     raw_section_context := Some "footer"; raw_container_context := "footer";
     raw_is_above_fold := false; raw_target_url := None;
     raw_is_external := false |}.

Definition html_page (st : Z) (final_url : string) (links : list string)
    (els : list RawElement) : LoadedPage :=
  {| lp_status := st; lp_final_url := final_url;
     lp_content_type := "text/html; charset=utf-8"; lp_title := "Example";
     lp_title_reread := Some "Example"; lp_consent := no_consent; lp_raw_elements := Some els;
     lp_links := links; lp_window := Some gtm_window |}.

Definition seed_page : LoadedPage :=
  html_page 200 "https://example.com"
    ["https://example.com/a/"; "https://example.com/b#top"; "https://other.com/"]
    [text_link "Read our cookie policy"].

Definition missing_page : LoadedPage :=
  html_page 404 "https://example.com/a" [] [].

(** [example.com]: no robots.txt; the home page links to [/a] (404), to
    [/b] and off-site; every other page links back home. *)
Definition site : Net :=
  {| robots_fetch := fun _ => RobotsHttp 404 EmptyString;
     goto := fun u =>
       if String.eqb u "https://example.com" then GotoResponse seed_page
       else if String.eqb u "https://example.com/a" then GotoResponse missing_page
       else GotoResponse (html_page 200 u ["https://example.com"] []);
     robots_is_allowed := Robots.simple_is_allowed |}.

Definition site_cfg : ScanConfig := mk_ScanConfig "https://example.com/" 200 5 (FFinite 1) [].


Definition nl : string := String (ascii_of_nat 10) EmptyString.

Definition private_robots : string :=
  "User-agent: *" ++ nl ++ "Disallow: /private" ++ nl.

(** A site whose robots.txt disallows [/private], crawled from
    [/private]. *)
Definition private_site : Net :=
  {| robots_fetch := fun _ => RobotsHttp 200 private_robots;
     goto := fun u => GotoResponse (html_page 200 u [] []);
     robots_is_allowed := Robots.simple_is_allowed |}.

Definition private_cfg : ScanConfig :=
  mk_ScanConfig "https://example.com/private" 200 5 (FFinite 1) [].

(** Two requests differing only in the tag settings. *)
Definition pharma_request : ScanRequest :=
  {| req_url := "https://example.com/"; req_max_pages := 200; req_max_depth := 5;
     req_rate_limit := FFinite 1; req_tag_name := "Pharma"; req_tag_keywords := None |}.

Definition compliance_request : ScanRequest :=
  {| req_url := "https://example.com/"; req_max_pages := 200; req_max_depth := 5;
     req_rate_limit := FFinite 1; req_tag_name := "Compliance";
     req_tag_keywords := Some ["cookie policy"] |}.

(** The engine with [/a] next in its queue, nothing visited yet. *)
Definition queued_engine : Engine :=
  {| config := site_cfg; base_domain := "example.com"; visited := [];
     pages := []; queue := [("https://example.com/a", 1%Z)];
     progress := {| scan_id := "s1"; pages_scanned := 0%Z;
                    total_pages_found := 0%Z; current_url := None;
                    status := "running" |};
     consent_result := None; total_elements := 0%Z; consent_calls := [] |}.

(** The outcome of a finished crawl, as a pair. *)
Definition outcome (r : res (Engine * list PageResult)) : Engine * list PageResult :=
  match r with Ok x => x | Err _ => (queued_engine, []) end.

(** The classifications stored for a crawl's elements. *)
Definition crawl_contexts (r : res (Engine * list PageResult)) : list (option string) :=
  flat_map (fun p => map pharma_context (elements p)) (snd (outcome r)).

End Fixtures.

(* ------------------------------------------------------------------ *)
(** ** Definitions used by the further properties *)

Module ExtraDefs.
Import Py Models Browser Engine.

(** Total number of elements over a list of pages. *)
Definition count_elements (ps : list PageResult) : Z :=
  Z.of_nat (list_sum (map (fun p => length (elements p)) ps)).

(** The loop's bookkeeping invariant: [cfg] and [sid] are the crawl's
    configuration and scan id. *)
Definition book_inv (cfg : ScanConfig) (sid : string) (e : Engine) (_ : bool)
    : Prop :=
  config e = cfg /\ status (progress e) = "running" /\
  scan_id (progress e) = sid /\
  pages_scanned (progress e) = Z.of_nat (length (pages e)) /\
  total_elements e = count_elements (pages e) /\
  NoDup (visited e) /\ NoDup (map pr_url (pages e)) /\
  incl (map pr_url (pages e)) (visited e) /\
  (Z.of_nat (length (pages e)) <= Z.max 0 (max_pages cfg))%Z.

End ExtraDefs.

Module SeedDefs.
Import Py Models Browser Engine.

(** The pages and queue of the crawl seen from its start URL [start] and
    its base domain [base]: until a page is recorded the queue holds at
    most the start entry; afterwards the first page is the start URL at
    depth 0, and every later page and every queued URL is in normal form
    and accepted by [_is_crawlable]. *)
Definition seed_inv (start base : string) (e : Engine) (_ : bool) : Prop :=
  base_domain e = base /\ _normalize_url start = Ok start /\
  ((pages e = [] /\ (queue e = [(start, 0%Z)] \/ queue e = [])) \/
   (exists p rest, pages e = p :: rest /\ pr_url p = start /\ depth p = 0%Z /\
      Forall (fun x => _is_crawlable base (fst x) = Ok true /\
                       _normalize_url (fst x) = Ok (fst x)) (queue e) /\
      Forall (fun r => _is_crawlable base (pr_url r) = Ok true /\
                       _normalize_url (pr_url r) = Ok (pr_url r)) rest)).

(** A queue entry in normal form that [_is_crawlable] accepts for
    [base]. *)
Definition good_entry (base : string) (x : string * Z) : Prop :=
  _is_crawlable base (fst x) = Ok true /\ _normalize_url (fst x) = Ok (fst x).

End SeedDefs.

Module PageDefs.
Import Py Models Browser Engine.

(** What a recorded page looks like: an error page has no elements; a
    page without error was loaded by a response below 400, whose status,
    title and extracted elements it carries. *)
Definition page_shape (net : Net) (r : PageResult) : Prop :=
  (exists msg, error r = Some msg /\ elements r = []) \/
  (error r = None /\ exists p, goto net (pr_url r) = GotoResponse p /\
     status_code r = Some (lp_status p) /\ (lp_status p < 400)%Z /\
     title r = (if String.eqb (lp_title p) EmptyString then None
                else Some (lp_title p)) /\
     elements r = Extractor.extract_elements p (pr_url r) "Pharma" None).

Definition shape_inv (net : Net) (e : Engine) (_ : bool) : Prop :=
  Forall (page_shape net) (pages e).

End PageDefs.

Module ComponentDefs.
Import Py Models Browser.

(** The framework names of [DETECTION_JS]. *)
Definition analytics_names : list string :=
  ["GTM"; "Adobe Launch"; "Tealium"; "Segment"; "GA4"; "Adobe Analytics"; "Hotjar"].

(** The actions [handle_consent] may report. *)
Definition consent_actions : list string :=
  ["none"; "accept_all"; "close"; "bypass_css"; "failed"].

End ComponentDefs.

Module ExtraFixtures.
Import Py Models Browser Engine Fixtures ScansApi.

(** A banner dismissed by a button reading "accept all". *)
Definition text_banner : ConsentDom :=
  {| banner_visible := true; query := fun _ => QNone;
     locate := fun tag text =>
       if String.eqb tag "button" && String.eqb text "accept all" then
         [{| cand_visible := true; cand_box := Some (120 # 1, 40 # 1);
             cand_click_ok := true |}]
       else [];
     bypass_removed := None |}.

(** A OneTrust banner with its accept button. *)
Definition onetrust_banner : ConsentDom :=
  {| banner_visible := true;
     query := fun s => if String.eqb s "#onetrust-accept-btn-handler"
                       then QElem true true else QNone;
     locate := fun _ _ => []; bypass_removed := None |}.

Definition example_parsed : Url.ParseResult :=
  {| Url.pr_scheme := "https"; Url.pr_netloc := "example.com"; Url.pr_path := "/";
     Url.pr_params := EmptyString; Url.pr_query := EmptyString;
     Url.pr_fragment := EmptyString |}.

Definition robots_outcome (r : res RobotsResult) : RobotsResult :=
  match r with Ok x => x | Err _ => Robots.not_found_result end.

(** Element rows as stored for a scan. *)
Definition stored_row (ty : string) (ctx : option string) : ElementResult :=
  {| page_url := "https://example.com"; page_title := Some "Example";
     element_type := ty; action_type := None; element_text := Some "Learn more";
     css_selector := None; section_context := None; container_context := "main";
     is_above_fold := false; target_url := None; is_external := false;
     pharma_context := ctx; notes := None |}.

Definition stored_rows : list ElementResult :=
  [stored_row "link" (Some "isi"); stored_row "button" None;
   stored_row "link" None; stored_row "form" (Some EmptyString)].

Definition empty_summary : ScanSummary :=
  {| sum_total_elements := 0; sum_by_type := []; sum_pharma_flagged := 0;
     sum_tag_name := "Pharma" |}.

Definition scan_view (hide : option string) : list ElementResult * ScanSummary :=
  match get_scan true None stored_rows hide with
  | Ok x => x
  | Err _ => ([], empty_summary)
  end.

Definition scan_writes (r : res (list DbWrite)) : list DbWrite :=
  match r with Ok ws => ws | Err _ => [] end.

Definition first_page (r : res (Engine * list PageResult)) : PageResult :=
  hd (error_page EmptyString 0 None EmptyString) (snd (outcome r)).

End ExtraFixtures.

(* ================================================================== *)
(** * Properties *)

(* ------------------------------------------------------------------ *)
(** ** String lemmas *)

Module StrFacts.
Import Py.

Lemma has_char_app c a b :
  has_char c (a ++ b) = has_char c a || has_char c b.
Proof.
  induction a as [|d a IH]; simpl; [reflexivity|].
  rewrite IH. apply orb_assoc.
Qed.

Lemma lower_char_hash c : Ascii.eqb "#" (lower_char c) = Ascii.eqb "#" c.
Proof. destruct c as [[] [] [] [] [] [] [] []]; reflexivity. Qed.

Lemma has_char_lower s : has_char "#" (lower s) = has_char "#" s.
Proof.
  induction s as [|c s IH]; cbn [has_char lower]; [reflexivity|].
  rewrite lower_char_hash, IH. reflexivity.
Qed.

Lemma forall_chars_no_char p c s :
  p c = false -> forall_chars p s = true -> has_char c s = false.
Proof.
  intros Hc. induction s as [|d s IH]; simpl; [reflexivity|].
  intros H. apply andb_true_iff in H as [Hd Hs].
  rewrite (IH Hs), orb_false_r.
  destruct (Ascii.eqb_spec c d); [subst; congruence | reflexivity].
Qed.

Lemma split1_app c s a b :
  split1 c s = Some (a, b) -> s = a ++ String c b /\ has_char c a = false.
Proof.
  revert a b. induction s as [|d s IH]; simpl; intros a b H; [discriminate|].
  destruct (Ascii.eqb_spec c d) as [->|Hne].
  - inversion H; subst. split; reflexivity.
  - destruct (split1 c s) as [[a' b']|] eqn:E; [|discriminate].
    inversion H; subst. destruct (IH _ _ eq_refl) as [-> Ha].
    split; [reflexivity|]. simpl. rewrite Ha, orb_false_r.
    destruct (Ascii.eqb_spec c d); congruence.
Qed.

Lemma split1_none c s : split1 c s = None -> has_char c s = false.
Proof.
  induction s as [|d s IH]; cbn [split1 has_char]; intros H; [reflexivity|].
  destruct (Ascii.eqb c d); [discriminate|].
  destruct (split1 c s) as [[]|]; [discriminate|]. auto.
Qed.

Lemma split1_no_char c c' s a b :
  split1 c s = Some (a, b) -> has_char c' s = false ->
  has_char c' a = false /\ has_char c' b = false.
Proof.
  intros H Hs. destruct (split1_app _ _ _ _ H) as [-> _].
  rewrite has_char_app in Hs. simpl in Hs.
  apply orb_false_iff in Hs as [Ha Hb].
  apply orb_false_iff in Hb as [_ Hb]. auto.
Qed.

Lemma break_at_no_char (p : ascii -> bool) c s a b :
  p c = true -> break_at p s = (a, b) -> has_char c a = false.
Proof.
  intros Hp. revert a b. induction s as [|d s IH]; simpl; intros a b H.
  - inversion H; reflexivity.
  - destruct (p d) eqn:Hd.
    + inversion H; reflexivity.
    + destruct (break_at p s) as [a' b'] eqn:E. inversion H; subst.
      simpl. rewrite (IH _ _ eq_refl), orb_false_r.
      destruct (Ascii.eqb_spec c d); [subst; congruence | reflexivity].
Qed.

Lemma rsplit_last_app c s a b : rsplit_last c s = Some (a, b) -> s = a ++ b.
Proof.
  revert a b. induction s as [|d s IH]; simpl; intros a b H; [discriminate|].
  destruct (rsplit_last c s) as [[a' b']|] eqn:E.
  - inversion H; subst. rewrite (IH _ _ eq_refl). reflexivity.
  - destruct (Ascii.eqb c d); inversion H; reflexivity.
Qed.

Lemma has_char_substring c n m s :
  has_char c s = false -> has_char c (substring n m s) = false.
Proof.
  revert n m. induction s as [|d s IH]; intros n m H; simpl.
  - destruct n, m; reflexivity.
  - simpl in H. apply orb_false_iff in H as [Hd Hs].
    destruct n as [|n].
    + destruct m as [|m]; simpl; [reflexivity|].
      rewrite Hd. apply IH; exact Hs.
    + apply IH; exact Hs.
Qed.

Lemma rstrip_by_prefix p s : exists t, s = rstrip_by p s ++ t.
Proof.
  induction s as [|d s [t Ht]]; simpl.
  - exists EmptyString. reflexivity.
  - destruct (String.eqb (rstrip_by p s) EmptyString && p d) eqn:E.
    + apply andb_true_iff in E as [E _]. apply String.eqb_eq in E.
      exists (String d s). reflexivity.
    + exists t. simpl. rewrite <- Ht. reflexivity.
Qed.

Lemma has_char_rstrip c p s :
  has_char c s = false -> has_char c (rstrip_by p s) = false.
Proof.
  intros H. destruct (rstrip_by_prefix p s) as [t Ht].
  rewrite Ht, has_char_app in H. apply orb_false_iff in H. tauto.
Qed.

Lemma ends_with_char_cons c d r :
  ends_with_char c (String d r) =
  if String.eqb r EmptyString then Ascii.eqb c d else ends_with_char c r.
Proof. destruct r; reflexivity. Qed.

Lemma rstrip_char_not_ends c s : ends_with_char c (rstrip_char c s) = false.
Proof.
  unfold rstrip_char. induction s as [|d s IH]; cbn [rstrip_by]; [reflexivity|].
  destruct (String.eqb (rstrip_by (Ascii.eqb c) s) EmptyString) eqn:E;
    destruct (Ascii.eqb c d) eqn:Ecd; cbn [andb];
    rewrite ?ends_with_char_cons, ?E, ?Ecd; try reflexivity; exact IH.
Qed.

End StrFacts.

(* ------------------------------------------------------------------ *)
(** ** [urldefrag] never returns a ['#'] *)

Module UrlFacts.
Import Py Url StrFacts.

Lemma split_scheme_no_hash u :
  has_char "#" (fst (split_scheme u)) = false.
Proof.
  unfold split_scheme.
  destruct (split1 ":" u) as [[pre post]|]; [|reflexivity].
  destruct pre as [|c pre']; [reflexivity|].
  destruct (is_alpha c && forall_chars scheme_char (String c pre')) eqn:E;
    [|reflexivity].
  apply andb_true_iff in E as [_ E]. cbn [fst].
  rewrite has_char_lower. apply (forall_chars_no_char scheme_char); auto.
Qed.

Lemma split_scheme_snd u :
  has_char "#" u = false -> has_char "#" (snd (split_scheme u)) = false.
Proof.
  intros H. unfold split_scheme.
  destruct (split1 ":" u) as [[pre post]|] eqn:E; [|exact H].
  destruct pre as [|c pre']; [exact H|].
  destruct (is_alpha c && forall_chars scheme_char (String c pre'));
    [|exact H].
  exact (proj2 (split1_no_char _ _ _ _ _ E H)).
Qed.

(** Every component [urlsplit] returns, the fragment apart, is free of
    ['#']. *)
Lemma urlsplit_no_hash u sr :
  urlsplit u = Ok sr ->
  has_char "#" (sr_scheme sr) = false /\ has_char "#" (sr_netloc sr) = false /\
  has_char "#" (sr_path sr) = false /\ has_char "#" (sr_query sr) = false.
Proof.
  unfold urlsplit.
  set (url1 := remove_by unsafe_url_byte (lstrip_by c0_control_or_space u)).
  pose proof (split_scheme_no_hash url1) as Hsch.
  destruct (split_scheme url1) as [scheme url2] eqn:Es. cbn [fst] in Hsch.
  assert (Hnet : forall r, split_netloc url2 = Ok r ->
                           has_char "#" (fst r) = false).
  { intros r Hr. unfold split_netloc in Hr. destruct (is_prefix "//" url2).
    - destruct (break_at netloc_delim
                  (substring 2 (String.length url2) url2)) as [n rest] eqn:Eb.
      destruct (_ || _); inversion Hr; subst.
      exact (break_at_no_char netloc_delim "#" _ _ _ eq_refl Eb).
    - inversion Hr; reflexivity. }
  destruct (split_netloc url2) as [[netloc url3]|msg] eqn:En;
    cbn [Py.bind]; [|discriminate].
  specialize (Hnet _ eq_refl). cbn [fst] in Hnet.
  destruct (split1 "#" url3) as [[url4 frag]|] eqn:Eh.
  - destruct (split1_app _ _ _ _ Eh) as [_ H4].
    destruct (split1 "?" url4) as [[path query]|] eqn:Eq;
      intros H; inversion H; subst; cbn.
    + destruct (split1_no_char _ _ _ _ _ Eq H4). auto.
    + auto.
  - assert (H3 : has_char "#" url3 = false).
    { exact (split1_none _ _ Eh). }
    destruct (split1 "?" url3) as [[path query]|] eqn:Eq;
      intros H; inversion H; subst; cbn.
    + destruct (split1_no_char _ _ _ _ _ Eq H3). auto.
    + auto.
Qed.

Lemma splitparams_no_hash u :
  has_char "#" u = false ->
  has_char "#" (fst (_splitparams u)) = false /\
  has_char "#" (snd (_splitparams u)) = false.
Proof.
  intros H. unfold _splitparams.
  destruct (has_char "/" u).
  - destruct (rsplit_last "/" u) as [[pre seg]|] eqn:Er; [|auto].
    pose proof (rsplit_last_app _ _ _ _ Er) as Hu. subst u.
    rewrite has_char_app in H. apply orb_false_iff in H as [Hp Hs].
    destruct (split1 ";" seg) as [[a b]|] eqn:E1.
    + destruct (split1_no_char _ _ _ _ _ E1 Hs). cbn [fst snd].
      rewrite has_char_app, Hp. auto.
    + cbn [fst snd]. rewrite has_char_app, Hp, Hs. auto.
  - destruct (split1 ";" u) as [[a b]|] eqn:E1; [|auto].
    exact (split1_no_char _ _ _ _ _ E1 H).
Qed.

Lemma urlparse_no_hash u pr :
  urlparse u = Ok pr ->
  has_char "#" (pr_scheme pr) = false /\ has_char "#" (pr_netloc pr) = false /\
  has_char "#" (pr_path pr) = false /\ has_char "#" (pr_params pr) = false /\
  has_char "#" (pr_query pr) = false.
Proof.
  unfold urlparse.
  destruct (urlsplit u) as [sr|msg] eqn:Es; cbn [Py.bind]; [|discriminate].
  destruct (urlsplit_no_hash _ _ Es) as (H1 & H2 & H3 & H4).
  destruct (mem_str (sr_scheme sr) uses_params && has_char ";" (sr_path sr)).
  - destruct (splitparams_no_hash _ H3) as [Ha Hb].
    destruct (_splitparams (sr_path sr)) as [path params].
    intros H; inversion H; subst; cbn. auto.
  - intros H; inversion H; subst; cbn. auto.
Qed.

Lemma urlunsplit_no_hash s n u q :
  has_char "#" s = false -> has_char "#" n = false ->
  has_char "#" u = false -> has_char "#" q = false ->
  has_char "#" (urlunsplit s n u q EmptyString) = false.
Proof.
  intros Hs Hn Hu Hq. unfold urlunsplit. cbn [String.eqb].
  assert (H1 : has_char "#" (if negb (String.eqb n EmptyString)
       || (negb (String.eqb s EmptyString) && mem_str s uses_netloc
           && negb (is_prefix "//" u))
    then "//" ++ n ++ (if negb (String.eqb u EmptyString)
                          && negb (is_prefix "/" u) then "/" ++ u else u)
    else u) = false).
  { destruct (_ || _); [|exact Hu].
    rewrite !has_char_app, Hn.
    destruct (_ && _); rewrite ?has_char_app, Hu; reflexivity. }
  destruct (String.eqb s EmptyString);
    destruct (String.eqb q EmptyString);
    rewrite ?has_char_app, ?Hs, ?Hq, ?H1; reflexivity.
Qed.

Lemma urldefrag_no_hash u v :
  urldefrag u = Ok v -> has_char "#" v = false.
Proof.
  unfold urldefrag. destruct (has_char "#" u) eqn:Eh.
  - destruct (urlparse u) as [pr|msg] eqn:Ep; cbn [Py.bind]; [|discriminate].
    intros H; inversion H; subst.
    destruct (urlparse_no_hash _ _ Ep) as (H1 & H2 & H3 & H4 & H5).
    unfold urlunparse. apply urlunsplit_no_hash; auto.
    destruct (String.eqb (pr_params pr) EmptyString); [exact H3|].
    rewrite !has_char_app, H3, H4. reflexivity.
  - intros H; inversion H; subst; exact Eh.
Qed.

Lemma urldefrag_no_hash_id u : has_char "#" u = false -> urldefrag u = Ok u.
Proof. intros H. unfold urldefrag. rewrite H. reflexivity. Qed.

End UrlFacts.

(* ------------------------------------------------------------------ *)
(** ** URL normalization *)

Module NormalizeFacts.
Import Py Url StrFacts UrlFacts Engine.

Lemma normalize_shape u v :
  _normalize_url u = Ok v ->
  has_char "#" v = false /\ ends_with_char "/" v = false.
Proof.
  unfold _normalize_url.
  destruct (urldefrag u) as [u1|msg] eqn:E; [|discriminate].
  intros H; inversion H; subst; clear H.
  pose proof (urldefrag_no_hash _ _ E) as Hh.
  destruct (ends_with_char "/" u1) eqn:Ee.
  - split; [unfold rstrip_char; apply has_char_rstrip; exact Hh|].
    apply rstrip_char_not_ends.
  - auto.
Qed.

Lemma normalize_fixed v :
  has_char "#" v = false -> ends_with_char "/" v = false ->
  _normalize_url v = Ok v.
Proof.
  intros Hh He. unfold _normalize_url.
  rewrite (urldefrag_no_hash_id _ Hh), He. reflexivity.
Qed.

(** C10: [_normalize_url] is idempotent (an input on which it raises
    raises again), and what it returns has no ['#'], hence no fragment,
    and does not end in ['/']. *)
Theorem normalize_url_idempotent (u : string) :
  Py.bind (_normalize_url u) _normalize_url = _normalize_url u /\
  match _normalize_url u with
  | Ok v => has_char "#" v = false /\ ends_with_char "/" v = false
  | Err _ => True
  end.
Proof.
  destruct (_normalize_url u) as [v|msg] eqn:E; cbn [Py.bind]; [|auto].
  destruct (normalize_shape _ _ E) as [Hh He].
  rewrite (normalize_fixed _ Hh He). auto.
Qed.

End NormalizeFacts.

(* ------------------------------------------------------------------ *)
(** ** Consent cascade *)

Module ConsentFacts.
Import Models Browser Consent.

(** C7: with no visible banner [handle_consent] reports [detected=false,
    action=none]; otherwise it runs the five strategies in priority order
    and reports the action of the first that succeeds ([accept_all] for
    the accept selector or text, [close] for the close selector or text,
    [bypass_css] for the DOM bypass), [detected=true, action=failed] when
    none does. *)
Theorem handle_consent_cascade (d : ConsentDom) :
  (detected (handle_consent d), action (handle_consent d)) = resolve_spec d.
Proof.
  unfold handle_consent, resolve_spec, strategies, first_success.
  destruct (banner_visible d); cbn [negb]; [|reflexivity].
  destruct (_try_click_selectors d ACCEPT_SELECTORS); [reflexivity|].
  destruct (_try_click_text d ACCEPT_TEXT_PATTERNS); [reflexivity|].
  destruct (_try_click_selectors d CLOSE_SELECTORS); [reflexivity|].
  destruct (_try_click_text d CLOSE_TEXT_PATTERNS); [reflexivity|].
  destruct (_try_dom_bypass d); reflexivity.
Qed.

End ConsentFacts.

(* ------------------------------------------------------------------ *)
(** ** What one page visit does to the engine *)

Module VisitFacts.
Import Py Models Browser Engine CrawlRelations.

Lemma frame_refl d e : frame d e e.
Proof.
  repeat split; auto. exists []. rewrite app_nil_r. auto.
Qed.

Lemma frame_trans d e1 e2 e3 : frame d e1 e2 -> frame d e2 e3 -> frame d e1 e3.
Proof.
  intros (H1 & H2 & H3 & H4 & n1 & Hq1 & Hf1) (G1 & G2 & G3 & G4 & n2 & Hq2 & Hf2).
  repeat split; try congruence.
  exists (n1 ++ n2)%list. split.
  - rewrite Hq2, Hq1, app_assoc. reflexivity.
  - apply Forall_app; auto.
Qed.

Section Preserve.
Variable P : Engine -> Engine -> Prop.
Hypothesis P_refl : forall e, P e e.
Hypothesis P_trans : forall e1 e2 e3, P e1 e2 -> P e2 e3 -> P e1 e3.

Lemma pres_ret {A} (a : A) : preserves P (ret a).
Proof. intros e. apply P_refl. Qed.

Lemma pres_lift {A} (r : res A) : preserves P (lift r).
Proof. intros e. apply P_refl. Qed.

Lemma pres_gets {A} (f : Engine -> A) : preserves P (gets f).
Proof. intros e. apply P_refl. Qed.

Lemma pres_modify f : (forall e, P e (f e)) -> preserves P (modify f).
Proof. intros H e. apply H. Qed.

Lemma pres_bind {A B} (m : M A) (k : A -> M B) :
  preserves P m -> (forall a, preserves P (k a)) -> preserves P (mbind m k).
Proof.
  intros Hm Hk e. specialize (Hm e). unfold mbind.
  destruct (m e) as [e1 [a|msg]]; cbn [fst] in *; [|exact Hm].
  exact (P_trans _ _ _ Hm (Hk a e1)).
Qed.

End Preserve.

Lemma enqueue_links_frame links d :
  preserves (enqueue_rel d) (enqueue_links links d).
Proof.
  assert (Hr : forall e, enqueue_rel d e e).
  { intros e. split; [apply frame_refl | reflexivity]. }
  assert (Ht : forall e1 e2 e3, enqueue_rel d e1 e2 -> enqueue_rel d e2 e3 ->
                                enqueue_rel d e1 e3).
  { intros e1 e2 e3 [H1 H2] [G1 G2]. split; [eapply frame_trans; eauto|congruence]. }
  induction links as [|link rest IH]; cbn [enqueue_links].
  - apply (pres_ret _ Hr).
  - apply (pres_bind _ Ht); [apply (pres_lift _ Hr)|intros norm].
    apply (pres_bind _ Ht); [apply (pres_gets _ Hr)|intros vis].
    apply (pres_bind _ Ht); [apply (pres_gets _ Hr)|intros base].
    apply (pres_bind _ Ht).
    { destruct (mem_str norm vis); [apply (pres_ret _ Hr) | apply (pres_lift _ Hr)]. }
    intros ok. apply (pres_bind _ Ht); [|intros _; exact IH].
    destruct ok; [|apply (pres_ret _ Hr)].
    apply pres_modify. intros e. split; [|reflexivity].
    repeat split. exists [(norm, (d + 1)%Z)]. split; [reflexivity|].
    constructor; [reflexivity | constructor].
Qed.

(** The visited page's URL and depth are the ones asked for. *)
Lemma visit_page_result net u d h e :
  pr_url (snd (_visit_page net u d h e)) = u /\
  depth (snd (_visit_page net u d h e)) = d.
Proof.
  unfold _visit_page, visit_body.
  destruct (goto net u) as [msg| |p]; [cbn; auto | cbn; auto|].
  destruct (400 <=? lp_status p)%Z; [cbn; auto|].
  unfold mbind, gets, lift.
  destruct (_is_same_domain (base_domain e) (lp_final_url p)) as [same|msg];
    [|cbn; auto].
  destruct (negb same); [cbn; auto|].
  destruct (_ && _); [cbn; auto|].
  match goal with |- context [ (if h then ?a else ?b) e ] =>
    destruct ((if h then a else b) e) as [e1 [[]|msg]]; [|cbn; auto] end.
  match goal with |- context [ (if ?c then ?a else ?b) e1 ] =>
    destruct ((if c then a else b) e1) as [e2 [[]|msg]]; cbn; auto end.
Qed.

Lemma pres_weaken (R R' : Engine -> Engine -> Prop) {A} (m : M A) :
  (forall e e', R e e' -> R' e e') -> preserves R m -> preserves R' m.
Proof. intros H Hm e. apply H, Hm. Qed.

(** After [gets f] the continuation runs on the same engine, with the
    value read from it. *)
Lemma pres_gets_bind (R : Engine -> Engine -> Prop) {A B} (f : Engine -> A)
    (k : A -> M B) :
  (forall e, R e (fst (k (f e) e))) -> preserves R (mbind (gets f) k).
Proof. intros H e. apply H. Qed.

Lemma pres_lift_bind (R : Engine -> Engine -> Prop) {A B} (r : res A)
    (k : A -> M B) :
  (forall e, R e e) -> (forall a, preserves R (k a)) ->
  preserves R (mbind (lift r) k).
Proof. intros Hr Hk e. unfold mbind, lift. destruct r; [apply Hk | apply Hr]. Qed.

Lemma pres_seq (P1 P2 : Engine -> Engine -> Prop) {A B} (m : M A)
    (k : A -> M B) :
  (forall e, P2 e e) -> preserves P1 m -> (forall a, preserves P2 (k a)) ->
  preserves (fun e e2 => exists e1, P1 e e1 /\ P2 e1 e2) (mbind m k).
Proof.
  intros Hr Hm Hk e. specialize (Hm e). unfold mbind.
  destruct (m e) as [e1 [a|msg]]; cbn [fst] in *; exists e1;
    [exact (conj Hm (Hk a e1)) | exact (conj Hm (Hr e1))].
Qed.

Lemma tail_rel_refl d e : tail_rel d e e.
Proof. split; [split; [apply frame_refl | reflexivity] | left; reflexivity]. Qed.

Lemma visit_tail_frame (links : list string) (d : Z) (r : PageResult) :
  preserves (tail_rel d)
    (mbind (gets (fun e => max_depth (config e)))
       (fun md => mbind (if (d <? md)%Z then enqueue_links links d else ret tt)
                    (fun _ => ret r))).
Proof.
  apply pres_gets_bind. intros e.
  destruct (d <? max_depth (config e))%Z eqn:Ed.
  - pose proof (enqueue_links_frame links d e) as H.
    unfold mbind. destruct (enqueue_links links d e) as [e1 [[]|msg]];
      cbn [fst ret] in *; (split; [exact H | right; apply Z.ltb_lt; exact Ed]).
  - apply tail_rel_refl.
Qed.

Lemma visit_rel_refl net u d h e : visit_rel net u d h e e.
Proof. split; [apply frame_refl | split; left; reflexivity]. Qed.

Lemma record_consent_frame d e u r : frame d e (record_consent e u r).
Proof. repeat split. exists []. rewrite app_nil_r. auto. Qed.

Lemma visit_body_frame net u d h :
  preserves (visit_rel net u d h) (visit_body net u d h).
Proof.
  unfold visit_body.
  destruct (goto net u) as [msg| |p] eqn:Eg;
    [intros e; apply visit_rel_refl | intros e; apply visit_rel_refl|].
  destruct (400 <=? lp_status p)%Z eqn:E400; [intros e; apply visit_rel_refl|].
  assert (Hst : (lp_status p < 400)%Z) by (apply Z.leb_gt; exact E400).
  apply pres_gets_bind. intros e0.
  apply (pres_lift_bind (visit_rel net u d h)); [apply visit_rel_refl|].
  intros same.
  destruct (negb same); [intros e; apply visit_rel_refl|].
  destruct (_ && _); [intros e; apply visit_rel_refl|].
  pose (P1 := fun e e' => frame d e e' /\
             (queue e' = queue e /\
              (consent_calls e' = consent_calls e \/
               (h = true /\ consent_calls e' = (consent_calls e ++ [u])%list)))).
  eapply pres_weaken;
    [|apply (pres_seq P1 (tail_rel d));
      [apply tail_rel_refl| |intros _; apply visit_tail_frame]].
  - intros e e2 (e1 & H1 & (Hf & Hc) & Hq).
    destruct H1 as (Hf1 & Hcc1).
    split; [eapply frame_trans; eauto|].
    destruct Hf1 as (Hcfg & _ & _ & _ & _).
    split.
    + destruct Hcc1 as [Hq1 _]. rewrite Hcfg in Hq.
      destruct Hq as [Hq|Hq]; [left; congruence | right; exact Hq].
    + rewrite Hc. destruct Hcc1 as [_ [Hcc|[Hh Hcc]]]; [left; exact Hcc|].
      right. repeat split; eauto.
  - intros e. destruct h; cbn [modify ret fst]; unfold P1.
    + split; [apply record_consent_frame|]. split; [reflexivity|].
      right. split; reflexivity.
    + split; [apply frame_refl | split; [reflexivity | left; reflexivity]].
Qed.

Lemma visit_page_frame net u d h e :
  visit_rel net u d h e (fst (_visit_page net u d h e)).
Proof.
  pose proof (visit_body_frame net u d h e) as H.
  unfold _visit_page. destruct (visit_body net u d h e) as [e' r]. exact H.
Qed.






End VisitFacts.
(* ------------------------------------------------------------------ *)
(** ** The crawl loop *)

Module LoopFacts.
Import Py Models Browser Engine CrawlRelations VisitFacts.

Lemma loop_step_cases net e h :
  match loop_step net e h with
  | Break e' => e' = e
  | Raised _ => True
  | Continue e' h' =>
      exists u d q, queue e = (u, d) :: q /\
      ((e' = set_queue e q /\ h' = h) \/
       (exists n, _normalize_url u = Ok n /\ (d <= max_depth (config e))%Z /\
          mem_str n (visited e) = false /\ h' = true /\
          e' = append_page (fst (_visit_page net n d (negb h) (before_visit e q n)))
                           (snd (_visit_page net n d (negb h) (before_visit e q n)))))
  end.
Proof.
  unfold loop_step.
  destruct (queue e) as [|[u d] q] eqn:Eq; [reflexivity|].
  destruct (max_pages (config e) <=? Z.of_nat (length (pages e)))%Z;
    [reflexivity|].
  destruct (_normalize_url u) as [n|msg] eqn:En; [|exact I].
  cbn [visited set_queue config].
  destruct (mem_str n (visited e)) eqn:Ev.
  { exists u, d, q. split; [reflexivity | left; split; reflexivity]. }
  destruct (max_depth (config e) <? d)%Z eqn:Ed.
  { exists u, d, q. split; [reflexivity | left; split; reflexivity]. }
  change (progress (set_queue e q)) with (progress e).
  fold (before_visit e q n).
  destruct (_visit_page net n d (negb h) (before_visit e q n)) as [e3 r] eqn:Evp.
  exists u, d, q. split; [reflexivity|]. right. exists n.
  rewrite Evp. cbn [fst snd].
  repeat split; auto.
  apply Z.ltb_ge. exact Ed.
Qed.

(** An invariant of the loop state (engine, [consent_handled]). *)
Section LoopInvariant.
Variable net : Net.
Variable Inv : Engine -> bool -> Prop.
Hypothesis Inv_step : forall e h e' h',
  Inv e h -> loop_step net e h = Continue e' h' -> Inv e' h'.

Lemma crawl_loop_inv budget e h :
  Inv e h ->
  match _crawl_loop net budget e h with
  | Finished e' | TimedOut e' => exists h', Inv e' h'
  | LoopRaised _ => True
  end.
Proof.
  revert e h. induction budget as [|b IH]; intros e h H; cbn [_crawl_loop].
  - eauto.
  - pose proof (loop_step_cases net e h) as Hc.
    destruct (loop_step net e h) as [e'|e' h'|msg] eqn:Es.
    + subst e'. eauto.
    + apply IH. eapply Inv_step; eauto.
    + exact I.
Qed.

End LoopInvariant.

Lemma with_progress_fields e p :
  config (set_progress e p) = config e /\ pages (set_progress e p) = pages e /\
  queue (set_progress e p) = queue e /\
  consent_calls (set_progress e p) = consent_calls e.
Proof. repeat split. Qed.

(** The outcomes of [run_crawl]: the returned pages are the engine's; either
    the crawl stopped before its loop (robots.txt) with a fresh engine, or
    the loop ran from a seeded engine and ended in a state of any
    loop invariant. *)
Lemma run_crawl_inv net budget cfg sid (Inv : Engine -> bool -> Prop) e ps :
  (forall e h e' h', Inv e h -> loop_step net e h = Continue e' h' -> Inv e' h') ->
  (forall e1 start, config e1 = cfg -> pages e1 = [] ->
     queue e1 = [(start, 0%Z)] -> consent_calls e1 = [] -> Inv e1 false) ->
  (forall e h p, Inv e h -> Inv (set_progress e p) h) ->
  run_crawl net budget cfg sid = Ok (e, ps) ->
  ps = pages e /\
  ((config e = cfg /\ pages e = [] /\ consent_calls e = []) \/ exists h, Inv e h).
Proof.
  intros Hstep Hinit Hprog.
  unfold run_crawl, CrawlEngine_init.
  destruct (Url.urlparse (url cfg)) as [pp|msg]; cbn [Py.bind]; [|discriminate].
  unfold crawl.
  destruct (Robots.check_robots_txt _ _ _) as [robots|msg]; cbn [Py.bind];
    [|discriminate].
  destruct (negb (allowed robots)).
  { intros H; inversion H; subst. split; [reflexivity|]. left. auto. }
  destruct (_normalize_url _) as [start|msg]; cbn [Py.bind]; [|discriminate].
  match goal with |- context [ _crawl_loop net budget ?e1 false ] =>
    pose proof (crawl_loop_inv net Inv Hstep budget e1 false) as HL;
    destruct (_crawl_loop net budget e1 false) as [e2|e2|msg] end.
  - destruct HL as [h Hh]; [eapply Hinit; reflexivity|].
    destruct (String.eqb (status (progress e2)) "running");
      intros H; inversion H; subst; (split; [reflexivity|]); right; eauto.
  - destruct HL as [h Hh]; [eapply Hinit; reflexivity|].
    intros H; inversion H; subst. split; [reflexivity|]. right; eauto.
  - discriminate.
Qed.

Lemma append_page_fields e r :
  config (append_page e r) = config e /\
  pages (append_page e r) = (pages e ++ [r])%list /\
  queue (append_page e r) = queue e /\
  consent_calls (append_page e r) = consent_calls e.
Proof. repeat split. Qed.

Lemma before_visit_fields e q n :
  config (before_visit e q n) = config e /\ pages (before_visit e q n) = pages e /\
  queue (before_visit e q n) = q /\
  consent_calls (before_visit e q n) = consent_calls e.
Proof. repeat split. Qed.

Lemma depth_inv_step net cfg e h e' h' :
  depth_inv cfg e h -> loop_step net e h = Continue e' h' -> depth_inv cfg e' h'.
Proof.
  intros [Hc [Hp Hq]] Es.
  pose proof (loop_step_cases net e h) as Hcs. rewrite Es in Hcs.
  destruct Hcs as [u [d [q [Eq [[-> _] | [n [_ [Hd [_ [_ ->]]]]]]]]]];
    rewrite Eq in Hq; inversion Hq as [|x l Hd0 Hq']; subst x l.
  - repeat split; auto.
  - cbn [snd] in Hd0.
    destruct (before_visit_fields e q n) as [Bc [Bp [Bq _]]].
    destruct (visit_page_frame net n d (negb h) (before_visit e q n))
      as [[Fc [Fp [_ [_ [nw [Fq Fn]]]]]] _].
    destruct (visit_page_result net n d (negb h) (before_visit e q n)) as [_ Rd].
    destruct (append_page_fields
      (fst (_visit_page net n d (negb h) (before_visit e q n)))
      (snd (_visit_page net n d (negb h) (before_visit e q n))))
      as [Ac [Ap [Aq _]]].
    unfold depth_inv. rewrite Ac, Ap, Aq, Fc, Fp, Fq, Bc, Bp, Bq.
    repeat split; auto.
    + apply Forall_app. split; auto. constructor; [|constructor].
      rewrite Rd. rewrite <- Hc. lia.
    + apply Forall_app. split; auto.
      eapply Forall_impl; [|exact Fn]. cbn. intros x Hx. lia.
Qed.


Lemma extract_classified p u tn tk :
  Forall (fun el => pharma_context el =
            Extractor.detect_tag_context (element_text el) (target_url el) tn tk)
    (Extractor.extract_elements p u tn tk).
Proof.
  unfold Extractor.extract_elements.
  destruct (lp_raw_elements p) as [raws|]; [|constructor].
  apply Forall_forall. intros x Hx.
  apply in_map_iff in Hx as [raw [<- _]]. reflexivity.
Qed.

(** The elements of a visited page are none, or those the extractor
    returns for the loaded page in its default mode. *)
Lemma visit_page_elements net u d h e :
  elements (snd (_visit_page net u d h e)) = [] \/
  exists p, goto net u = GotoResponse p /\
    elements (snd (_visit_page net u d h e)) =
      Extractor.extract_elements p u "Pharma" None.
Proof.
  unfold _visit_page, visit_body.
  destruct (goto net u) as [msg| |p]; [cbn; auto | cbn; auto|].
  destruct (400 <=? lp_status p)%Z; [cbn; auto|].
  unfold mbind, gets, lift.
  destruct (_is_same_domain (base_domain e) (lp_final_url p)) as [same|msg];
    [|cbn; auto].
  destruct (negb same); [cbn; auto|].
  destruct (_ && _); [cbn; auto|].
  match goal with |- context [ (if h then ?a else ?b) e ] =>
    destruct ((if h then a else b) e) as [e1 [[]|msg]]; [|cbn; auto] end.
  match goal with |- context [ (if ?c then ?a else ?b) e1 ] =>
    destruct ((if c then a else b) e1) as [e2 [[]|msg]]; cbn; eauto end.
Qed.

Lemma builtin_classified_step net e h e' h' :
  builtin_classified e h -> loop_step net e h = Continue e' h' ->
  builtin_classified e' h'.
Proof.
  intros Hc Es.
  pose proof (loop_step_cases net e h) as Hcs. rewrite Es in Hcs.
  destruct Hcs as [u [d [q [Eq [[-> _] | [n [_ [_ [_ [_ ->]]]]]]]]]].
  - exact Hc.
  - unfold builtin_classified.
    destruct (before_visit_fields e q n) as [_ [Bp _]].
    destruct (visit_page_frame net n d (negb h) (before_visit e q n))
      as [[_ [Fp _]] _].
    destruct (append_page_fields
      (fst (_visit_page net n d (negb h) (before_visit e q n)))
      (snd (_visit_page net n d (negb h) (before_visit e q n))))
      as [_ [Ap _]].
    rewrite Ap, Fp, Bp. apply Forall_app. split; [exact Hc|].
    constructor; [|constructor].
    destruct (visit_page_elements net n d (negb h) (before_visit e q n))
      as [-> | [p [_ ->]]]; [constructor | apply extract_classified].
Qed.

Lemma visit_body_windows w net u d h :
  visit_body (with_windows w net) u d h = visit_body net u d h.
Proof.
  unfold visit_body. cbn [goto with_windows].
  destruct (goto net u); reflexivity.
Qed.

Lemma loop_step_windows w net e h :
  loop_step (with_windows w net) e h = loop_step net e h.
Proof.
  unfold loop_step.
  destruct (queue e) as [|[u d] q]; [reflexivity|].
  destruct (_ <=? _)%Z; [reflexivity|].
  destruct (_normalize_url u) as [n|msg]; [|reflexivity].
  destruct (mem_str _ _); [reflexivity|].
  destruct (_ <? _)%Z; [reflexivity|].
  unfold _visit_page. rewrite visit_body_windows. reflexivity.
Qed.

Lemma crawl_loop_windows w net budget e h :
  _crawl_loop (with_windows w net) budget e h = _crawl_loop net budget e h.
Proof.
  revert e h. induction budget as [|b IH]; intros e h; cbn [_crawl_loop];
    [reflexivity|].
  rewrite loop_step_windows.
  destruct (loop_step net e h); [reflexivity | apply IH | reflexivity].
Qed.

Lemma run_crawl_windows w net budget cfg sid :
  run_crawl (with_windows w net) budget cfg sid = run_crawl net budget cfg sid.
Proof.
  unfold run_crawl.
  destruct (CrawlEngine_init cfg) as [e|msg]; cbn [Py.bind]; [|reflexivity].
  unfold crawl.
  change (Robots.check_robots_txt (with_windows w net))
    with (Robots.check_robots_txt net).
  destruct (Robots.check_robots_txt net _ _) as [r|msg]; cbn [Py.bind];
    [|reflexivity].
  destruct (negb (allowed r)); [reflexivity|].
  destruct (_normalize_url _) as [s|msg]; cbn [Py.bind]; [|reflexivity].
  rewrite crawl_loop_windows. reflexivity.
Qed.

End LoopFacts.

(* ------------------------------------------------------------------ *)
(** ** Crawl-level facts *)

Module CrawlFacts.
Import Py Models Browser Engine CrawlRelations VisitFacts LoopFacts.

Lemma run_crawl_builtin_classified net budget cfg sid e ps :
  run_crawl net budget cfg sid = Ok (e, ps) ->
  Forall (fun p => Forall (fun el =>
     pharma_context el =
       Extractor.detect_tag_context (element_text el) (target_url el) "Pharma" None)
     (elements p)) ps.
Proof.
  intros H.
  destruct (run_crawl_inv net budget cfg sid builtin_classified e ps
              (builtin_classified_step net) ltac:(intros e1 s _ Hp _ _;
                unfold builtin_classified; rewrite Hp; constructor)
              ltac:(intros e0 h p Hc; exact Hc) H) as [-> [[_ [Hp _]] | [h Hc]]].
  - rewrite Hp. constructor.
  - exact Hc.
Qed.

Lemma app_self_nil {A} (l new : list A) : (l ++ new)%list = l -> new = [].
Proof.
  intros H. apply (f_equal (@length A)) in H. rewrite length_app in H.
  apply length_zero_iff_nil. lia.
Qed.

(** Links enter the queue at [depth + 1], and only from a page whose
    depth is below [max_depth]. *)
Lemma visit_page_enqueue net u d h e0 :
  exists new, queue (fst (_visit_page net u d h e0)) = (queue e0 ++ new)%list /\
    Forall (fun x => snd x = (d + 1)%Z) new /\
    (new = [] \/ (d < max_depth (config e0))%Z).
Proof.
  destruct (visit_page_frame net u d h e0) as [[_ [_ [_ [_ [nw [Hq Hf]]]]]] [Hd _]].
  exists nw. split; [exact Hq|]. split; [exact Hf|].
  destruct Hd as [Hd|Hd]; [left|right; exact Hd].
  rewrite Hd in Hq. symmetry in Hq. exact (app_self_nil _ _ Hq).
Qed.

End CrawlFacts.

(* ------------------------------------------------------------------ *)
(** ** Claims on the crawl *)

Module CrawlClaims.
Import Py Models Browser Engine CrawlRelations VisitFacts LoopFacts CrawlFacts Fixtures.

(** C1: the tag settings of a request never reach the classifier.  The
    configuration built for a [Compliance] request with the keyword
    [cookie policy] is the one built for a [Pharma] request without
    keywords, so crawling the example site classifies its element
    [Read our cookie policy] in built-in mode (no tag), whereas the
    classifier given the request's settings tags it [cookie policy]. *)
Theorem crawl_ignores_requested_tag :
  create_scan_config compliance_request = create_scan_config pharma_request /\
  crawl_contexts (run_crawl site 10 (create_scan_config compliance_request) "s1")
    = [None] /\
  Extractor.detect_tag_context (Some "Read our cookie policy") None "Compliance"
    (Some ["cookie policy"]) = Some "cookie policy".
Proof.
  split; [reflexivity|]. split; [vm_compute; reflexivity | reflexivity].
Qed.




(** C5: the analytics detector plays no part in a crawl.  Whatever the
    analytics globals of the loaded pages are, the crawl returns the same
    engine and the same pages; the example home page, where the detector
    reports GTM, is one of them. *)
Theorem crawl_ignores_analytics :
  (forall w net budget cfg sid,
     run_crawl (with_windows w net) budget cfg sid =
     run_crawl net budget cfg sid) /\
  Analytics.detect_analytics seed_page = ["GTM"] /\
  goto site "https://example.com" = GotoResponse seed_page.
Proof.
  split; [intros; apply run_crawl_windows|]. split; reflexivity.
Qed.

(** C6: the robots check looks at the path [/] only.  The robots.txt of
    the private site disallows [/private], the checker asked about the
    seed's own path answers [allowed = false], yet the crawl seeded at
    [https://example.com/private] completes with the seed page. *)
Theorem robots_seed_path_not_checked :
  Robots.simple_is_allowed private_robots user_agent "/private" = false /\
  option_map allowed
    (match Robots.check_robots_txt private_site (url private_cfg) "/private" with
     | Ok r => Some r | Err _ => None end) = Some false /\
  match run_crawl private_site 10 private_cfg "s3" with
  | Ok (e, ps) => status (progress e) = "completed" /\
                 map pr_url ps = ["https://example.com/private"]
  | Err _ => False
  end.
Proof.
  split; [reflexivity|]. split; [vm_compute; reflexivity|].
  vm_compute. auto.
Qed.

(** C8: a loop step that visits a URL answering with status 400 or more
    records an error page (status, [HTTP n] error, no element) for it,
    leaves the rest of the queue as it was (no link of that page is
    queued), marks consent as handled and lets the loop go on. *)
Theorem http_error_page_continues net e h u d q n p :
  queue e = (u, d) :: q ->
  (Z.of_nat (length (pages e)) < max_pages (config e))%Z ->
  _normalize_url u = Ok n ->
  mem_str n (visited e) = false ->
  (d <= max_depth (config e))%Z ->
  goto net n = GotoResponse p ->
  (400 <= lp_status p)%Z ->
  exists e' r,
    loop_step net e h = Continue e' true /\
    (forall b, _crawl_loop net (S b) e h = _crawl_loop net b e' true) /\
    pages e' = (pages e ++ [r])%list /\ queue e' = q /\
    pr_url r = n /\ depth r = d /\ status_code r = Some (lp_status p) /\
    error r = Some ("HTTP " ++ Z_to_string (lp_status p)) /\ elements r = [].
Proof.
  intros Hq Hcap Hn Hv Hd Hg Hs.
  assert (Es : loop_step net e h =
    Continue (append_page (before_visit e q n)
                (error_page n d (Some (lp_status p))
                   ("HTTP " ++ Z_to_string (lp_status p)))) true).
  { unfold loop_step. rewrite Hq.
    rewrite (proj2 (Z.leb_gt _ _) Hcap), Hn.
    cbn [visited set_queue config]. rewrite Hv, (proj2 (Z.ltb_ge _ _) Hd).
    unfold _visit_page, visit_body. rewrite Hg, (proj2 (Z.leb_le _ _) Hs).
    reflexivity. }
  eexists _, _. split; [exact Es|].
  split; [intros b; cbn [_crawl_loop]; rewrite Es; reflexivity|].
  repeat split.
Qed.

Lemma http_error_page_continues_witness :
  exists e' r,
    loop_step site queued_engine true = Continue e' true /\
    (forall b, _crawl_loop site (S b) queued_engine true = _crawl_loop site b e' true) /\
    pages e' = (pages queued_engine ++ [r])%list /\ queue e' = [] /\
    pr_url r = "https://example.com/a" /\ depth r = 1%Z /\
    status_code r = Some (lp_status missing_page) /\
    error r = Some ("HTTP " ++ Z_to_string (lp_status missing_page)) /\
    elements r = [].
Proof.
  apply (http_error_page_continues site queued_engine true
           "https://example.com/a" 1%Z [] "https://example.com/a" missing_page);
    try reflexivity; vm_compute; try reflexivity; discriminate.
Defined.

(** C9: every page of a finished crawl has a depth in [0, max_depth];
    links enter the queue at depth + 1 and only from pages whose depth is
    below [max_depth]. *)
Theorem crawl_depth_bounded net budget cfg sid e ps :
  run_crawl net budget cfg sid = Ok (e, ps) ->
  Forall (fun p => (0 <= depth p <= max_depth cfg)%Z) ps /\
  (forall u d h e0, exists new,
     queue (fst (_visit_page net u d h e0)) = (queue e0 ++ new)%list /\
     Forall (fun x => snd x = (d + 1)%Z) new /\
     (new = [] \/ (d < max_depth (config e0))%Z)).
Proof.
  intros H. split; [|intros; apply visit_page_enqueue].
  destruct (run_crawl_inv net budget cfg sid (depth_inv cfg) e ps
              (depth_inv_step net cfg)
              ltac:(intros e1 s Hc Hp Hq _; unfold depth_inv; rewrite Hc, Hp, Hq;
                    split; [reflexivity|]; split; constructor; cbn; [lia|constructor])
              ltac:(intros e0 h p Hc; exact Hc) H)
    as [-> [[_ [Hp _]] | [h [_ [Hp _]]]]].
  - rewrite Hp. constructor.
  - exact Hp.
Qed.

Lemma crawl_depth_bounded_witness :
  run_crawl site 10 site_cfg "s1" =
    Ok (fst (outcome (run_crawl site 10 site_cfg "s1")),
        snd (outcome (run_crawl site 10 site_cfg "s1"))) /\
  Forall (fun p => (0 <= depth p <= max_depth site_cfg)%Z)
    (snd (outcome (run_crawl site 10 site_cfg "s1"))).
Proof.
  split; [vm_compute; reflexivity|].
  apply (crawl_depth_bounded site 10 site_cfg "s1"
           (fst (outcome (run_crawl site 10 site_cfg "s1")))
           (snd (outcome (run_crawl site 10 site_cfg "s1")))).
  vm_compute; reflexivity.
Defined.

End CrawlClaims.

(* ------------------------------------------------------------------ *)
(** ** Claims on the classifier *)

Module ClassifierClaims.
Import Py Extractor.

Lemma scan_categories_in table t c :
  scan_categories table t = Some c -> In c (map fst table).
Proof.
  induction table as [|[cat ps] rest IH]; cbn [scan_categories]; [discriminate|].
  destruct (scan_patterns ps t).
  - intros H; inversion H; subst. left; reflexivity.
  - intros H. right. exact (IH H).
Qed.

Lemma first_keyword_in kws combined k :
  first_keyword kws combined = Some k -> In k kws.
Proof.
  induction kws as [|kw rest IH]; cbn [first_keyword]; [discriminate|].
  destruct (contains (lower kw) combined).
  - intros H; inversion H; subst. left; reflexivity.
  - intros H. right. exact (IH H).
Qed.

(** C2: in built-in mode the classifier returns a bare category name,
    never ["<category>:<phrase>"]: [View Important Safety Information]
    is classified [isi], where the contract's reading gives
    [isi:important safety information]. *)
Theorem builtin_mode_returns_category :
  (forall text url,
     match detect_tag_context text url "Pharma" None with
     | None => True
     | Some r => In r (map fst PHARMA_PATTERNS)
     end) /\
  detect_tag_context (Some "View Important Safety Information") None "Pharma" None
    = Some "isi" /\
  spec_builtin_text PHARMA_PATTERNS (lower "View Important Safety Information")
    = Some "isi:important safety information".
Proof.
  split; [|split; reflexivity].
  intros text url. unfold detect_tag_context.
  change (String.eqb "Pharma" "Pharma" && is_falsy_list None) with true.
  cbv iota. unfold _detect_pharma_builtin.
  destruct text as [[|a t]|]; [exact I| |exact I].
  destruct (scan_categories PHARMA_PATTERNS (lower (String a t))) as [c|] eqn:Ec.
  - exact (scan_categories_in _ _ _ Ec).
  - destruct url as [[|b v]|]; [exact I| |exact I].
    destruct (_ || _); [cbn; auto|].
    destruct (_ || _); [cbn; auto | exact I].
Qed.

(** C3: in custom mode the classifier returns one of the caller's
    keywords as given, the first that matches, without a [custom:]
    prefix: for [Read our cookie policy and privacy notice] with the
    keywords [cookie policy] and [privacy notice] it returns
    [cookie policy], where the contract's reading gives
    [custom:cookie policy]. *)
Theorem custom_mode_returns_keyword :
  (forall text url tag_name k kws,
     match detect_tag_context text url tag_name (Some (k :: kws)) with
     | None => True
     | Some r => In r (k :: kws)
     end) /\
  detect_tag_context (Some "Read our cookie policy and privacy notice") None
    "Compliance" (Some ["cookie policy"; "privacy notice"]) = Some "cookie policy" /\
  spec_custom (Some "Read our cookie policy and privacy notice") None
    ["cookie policy"; "privacy notice"] = Some "custom:cookie policy".
Proof.
  split; [|split; reflexivity].
  intros text url tag_name k kws. unfold detect_tag_context.
  change (is_falsy_list (Some (k :: kws))) with false.
  rewrite andb_false_r. cbv iota.
  destruct (strip_is_empty _); [exact I|].
  destruct (first_keyword (k :: kws) _) as [r|] eqn:Er; [|exact I].
  exact (first_keyword_in _ _ _ Er).
Qed.

End ClassifierClaims.

(* ------------------------------------------------------------------ *)
(** ** Further properties of the crawl, its components and the scan API *)

(* ------------------------------------------------------------------ *)
(** ** Bookkeeping of the crawl *)

Module BookFacts.
Import Py Models Browser Engine CrawlRelations VisitFacts LoopFacts.

Section GenericVisit.
Variable P : Engine -> Engine -> Prop.
Hypothesis P_refl : forall e, P e e.
Hypothesis P_trans : forall e1 e2 e3, P e1 e2 -> P e2 e3 -> P e1 e3.
Hypothesis P_queue : forall e q, P e (set_queue e q).
Hypothesis P_consent : forall e u r, P e (record_consent e u r).

Lemma enqueue_links_pres links d : preserves P (enqueue_links links d).
Proof.
  induction links as [|link rest IH]; cbn [enqueue_links].
  - apply (pres_ret _ P_refl).
  - apply (pres_bind _ P_trans); [apply (pres_lift _ P_refl)|intros norm].
    apply (pres_bind _ P_trans); [apply (pres_gets _ P_refl)|intros vis].
    apply (pres_bind _ P_trans); [apply (pres_gets _ P_refl)|intros base].
    apply (pres_bind _ P_trans).
    { destruct (mem_str norm vis); [apply (pres_ret _ P_refl) | apply (pres_lift _ P_refl)]. }
    intros ok. apply (pres_bind _ P_trans); [|intros _; exact IH].
    destruct ok; [|apply (pres_ret _ P_refl)].
    apply pres_modify. intros e. apply P_queue.
Qed.

Lemma visit_body_pres net u d h : preserves P (visit_body net u d h).
Proof.
  unfold visit_body. destruct (goto net u) as [msg| |p].
  - intros e. apply P_refl.
  - apply (pres_ret _ P_refl).
  - destruct (400 <=? _)%Z; [apply (pres_ret _ P_refl)|].
    apply (pres_bind _ P_trans); [apply (pres_gets _ P_refl)|intros base].
    apply (pres_bind _ P_trans); [apply (pres_lift _ P_refl)|intros same].
    destruct (negb same); [apply (pres_ret _ P_refl)|].
    destruct (_ && _); [apply (pres_ret _ P_refl)|].
    cbv zeta.
    apply (pres_bind _ P_trans).
    { destruct h; [apply pres_modify; intros e; apply P_consent
                  | apply (pres_ret _ P_refl)]. }
    intros _. apply (pres_bind _ P_trans); [apply (pres_gets _ P_refl)|intros md].
    apply (pres_bind _ P_trans); [|intros _; apply (pres_ret _ P_refl)].
    destruct (d <? md)%Z; [apply enqueue_links_pres | apply (pres_ret _ P_refl)].
Qed.

Lemma visit_page_pres net u d h e : P e (fst (_visit_page net u d h e)).
Proof.
  pose proof (visit_body_pres net u d h e) as H.
  unfold _visit_page. destruct (visit_body net u d h e). exact H.
Qed.

End GenericVisit.

(** A visit leaves the progress record, the visited set, the element
    counter and the recorded pages alone. *)
Lemma visit_page_keeps net u d h e :
  progress (fst (_visit_page net u d h e)) = progress e /\
  visited (fst (_visit_page net u d h e)) = visited e /\
  total_elements (fst (_visit_page net u d h e)) = total_elements e /\
  pages (fst (_visit_page net u d h e)) = pages e.
Proof.
  apply (visit_page_pres (fun e e' => progress e' = progress e /\
           visited e' = visited e /\ total_elements e' = total_elements e /\
           pages e' = pages e)).
  - intros; repeat split.
  - intros e1 e2 e3 (A1 & A2 & A3 & A4) (B1 & B2 & B3 & B4). repeat split; congruence.
  - intros; repeat split.
  - intros; repeat split.
Qed.

Lemma loop_step_cases_cap net e h :
  match loop_step net e h with
  | Break e' => e' = e
  | Raised _ => True
  | Continue e' h' =>
      exists u d q, queue e = (u, d) :: q /\
      ((e' = set_queue e q /\ h' = h) \/
       (exists n, _normalize_url u = Ok n /\ (d <= max_depth (config e))%Z /\
          mem_str n (visited e) = false /\ h' = true /\
          (Z.of_nat (length (pages e)) < max_pages (config e))%Z /\
          e' = append_page (fst (_visit_page net n d (negb h) (before_visit e q n)))
                           (snd (_visit_page net n d (negb h) (before_visit e q n)))))
  end.
Proof.
  unfold loop_step.
  destruct (queue e) as [|[u d] q] eqn:Eq; [reflexivity|].
  destruct (max_pages (config e) <=? Z.of_nat (length (pages e)))%Z eqn:Ecap;
    [reflexivity|].
  destruct (_normalize_url u) as [n|msg] eqn:En; [|exact I].
  cbn [visited set_queue config].
  destruct (mem_str n (visited e)) eqn:Ev.
  { exists u, d, q. split; [reflexivity | left; split; reflexivity]. }
  destruct (max_depth (config e) <? d)%Z eqn:Ed.
  { exists u, d, q. split; [reflexivity | left; split; reflexivity]. }
  change (progress (set_queue e q)) with (progress e).
  fold (before_visit e q n).
  destruct (_visit_page net n d (negb h) (before_visit e q n)) as [e3 r] eqn:Evp.
  exists u, d, q. split; [reflexivity|]. right. exists n.
  rewrite Evp. cbn [fst snd].
  repeat split; auto.
  - apply Z.ltb_ge. exact Ed.
  - apply Z.leb_gt. exact Ecap.
Qed.

Lemma mem_str_false_not_in s l : mem_str s l = false -> ~ In s l.
Proof.
  unfold mem_str. intros H Hin.
  assert (existsb (String.eqb s) l = true) as Ht.
  { apply existsb_exists. exists s. split; [exact Hin | apply String.eqb_refl]. }
  congruence.
Qed.

Lemma mem_str_true_in s l : mem_str s l = true -> In s l.
Proof.
  unfold mem_str. intros H. apply existsb_exists in H as [x [Hx Hs]].
  apply String.eqb_eq in Hs. subst. exact Hx.
Qed.

End BookFacts.

Module BookFacts2.
Import Py Models Browser Engine CrawlRelations VisitFacts LoopFacts BookFacts ExtraDefs.

Lemma book_inv_step net cfg sid e h e' h' :
  book_inv cfg sid e h -> loop_step net e h = Continue e' h' -> book_inv cfg sid e' h'.
Proof.
  intros (Hc & Hs & Hi & Hn & Ht & Hv & Hu & Hin & Hcap) Es.
  pose proof (loop_step_cases_cap net e h) as Hcs. rewrite Es in Hcs.
  destruct Hcs as [u [d [q [Eq [[-> _] | [n [_ [Hd [Hm [_ [Hlt ->]]]]]]]]]]].
  - repeat split; auto.
  - destruct (visit_page_keeps net n d (negb h) (before_visit e q n))
      as (Kp & Kv & Kt & Kpg).
    destruct (visit_page_result net n d (negb h) (before_visit e q n)) as [Ru _].
    set (e3 := fst (_visit_page net n d (negb h) (before_visit e q n))) in *.
    set (r := snd (_visit_page net n d (negb h) (before_visit e q n))) in *.
    pose proof (mem_str_false_not_in _ _ Hm) as Hnv.
    assert (Hpg : pages e3 = pages e) by (rewrite Kpg; reflexivity).
    assert (Hvs : visited e3 = (visited e ++ [n])%list) by (rewrite Kv; reflexivity).
    assert (Hpr : progress e3 = with_current_url (progress e) n)
      by (rewrite Kp; reflexivity).
    assert (Hte : total_elements e3 = total_elements e) by (rewrite Kt; reflexivity).
    assert (Hce : config e3 = config e).
    { destruct (visit_page_frame net n d (negb h) (before_visit e q n)) as [[Fc _] _].
      exact Fc. }
    unfold book_inv; cbn [append_page config pages visited progress total_elements
                          status scan_id pages_scanned].
    rewrite Hpg, Hvs, Hpr, Hte, Hce. cbn [status scan_id with_current_url].
    rewrite map_app. cbn [map]. rewrite Ru.
    repeat split; auto.
    + unfold count_elements. rewrite Ht. unfold count_elements.
      rewrite map_app, list_sum_app. cbn [map list_sum fold_right]. lia.
    + apply NoDup_app; auto.
      * constructor; [intros []|constructor].
      * intros x Hx [<-|[]]. exact (Hnv Hx).
    + apply NoDup_app; auto.
      * constructor; [intros []|constructor].
      * intros x Hx [<-|[]]. exact (Hnv (Hin _ Hx)).
    + intros x Hx. apply in_app_or in Hx as [Hx|[<-|[]]];
        apply in_or_app; [left; apply Hin; exact Hx | right; left; reflexivity].
    + rewrite length_app. cbn [length]. rewrite <- Hc. lia.
Qed.

End BookFacts2.

Module BookFacts3.
Import Py Models Browser Engine CrawlRelations VisitFacts LoopFacts BookFacts ExtraDefs BookFacts2.

(** How [crawl] ends: blocked by robots.txt with a fresh engine, or after
    the loop, with the status set to [timeout] or [completed] (or left as
    the loop put it when it is no longer [running]). *)
Lemma run_crawl_outcome net budget cfg sid (Inv : Engine -> bool -> Prop) e ps :
  (forall e h e' h', Inv e h -> loop_step net e h = Continue e' h' -> Inv e' h') ->
  (forall e1 start pp, Url.urlparse (url cfg) = Ok pp ->
     base_domain e1 = Url.pr_netloc pp -> _normalize_url (url cfg) = Ok start ->
     config e1 = cfg -> pages e1 = [] -> visited e1 = [] ->
     queue e1 = [(start, 0%Z)] -> consent_calls e1 = [] ->
     consent_result e1 = None -> total_elements e1 = 0%Z ->
     progress e1 = {| scan_id := sid; pages_scanned := 0; total_pages_found := 0;
                      current_url := None; status := "running" |} ->
     Inv e1 false) ->
  run_crawl net budget cfg sid = Ok (e, ps) ->
  ps = pages e /\
  ((config e = cfg /\ status (progress e) = "blocked_by_robots" /\ scan_id (progress e) = sid /\
    pages e = [] /\ visited e = [] /\ consent_calls e = [] /\
    consent_result e = None /\ total_elements e = 0%Z /\
    pages_scanned (progress e) = 0%Z) \/
   exists e2 h, Inv e2 h /\ config e = config e2 /\ pages e = pages e2 /\
     visited e = visited e2 /\ total_elements e = total_elements e2 /\
     consent_calls e = consent_calls e2 /\ consent_result e = consent_result e2 /\
     scan_id (progress e) = scan_id (progress e2) /\
     pages_scanned (progress e) = pages_scanned (progress e2) /\
     (status (progress e) = "timeout" \/ status (progress e) = "completed" \/
      (status (progress e) = status (progress e2) /\
       status (progress e2) <> "running"))).
Proof.
  intros Hstep Hinit.
  unfold run_crawl, CrawlEngine_init.
  destruct (Url.urlparse (url cfg)) as [pp|msg] eqn:Epp; cbn [Py.bind]; [|discriminate].
  unfold crawl.
  destruct (Robots.check_robots_txt _ _ _) as [robots|msg]; cbn [Py.bind];
    [|discriminate].
  destruct (negb (allowed robots)).
  { intros H; inversion H; subst. split; [reflexivity|].
    left. repeat split. }
  destruct (_normalize_url _) as [start|msg] eqn:Est; cbn [Py.bind]; [|discriminate].
  match goal with |- context [ _crawl_loop net budget ?e1 false ] =>
    pose proof (crawl_loop_inv net Inv Hstep budget e1 false) as HL;
    destruct (_crawl_loop net budget e1 false) as [e2|e2|msg] end.
  - destruct HL as [h Hh]; [eapply Hinit; [first [exact Epp | reflexivity] | reflexivity | first [exact Est | reflexivity] | reflexivity ..]|].
    destruct (String.eqb (status (progress e2)) "running") eqn:Er;
      intros H; inversion H; subst; (split; [reflexivity|]); right; eexists _, h; (split; [exact Hh|]);
      repeat split; auto.
    right. right. split; [reflexivity|]. intros Hr.
    rewrite Hr in Er. discriminate.
  - destruct HL as [h Hh]; [eapply Hinit; [first [exact Epp | reflexivity] | reflexivity | first [exact Est | reflexivity] | reflexivity ..]|].
    intros H; inversion H; subst. split; [reflexivity|].
    right; eexists _, h; (split; [exact Hh|]); repeat split; auto.
  - discriminate.
Qed.

Lemma book_inv_init cfg sid e1 start :
  config e1 = cfg -> pages e1 = [] -> visited e1 = [] ->
  queue e1 = [(start, 0%Z)] -> consent_calls e1 = [] ->
  consent_result e1 = None -> total_elements e1 = 0%Z ->
  progress e1 = {| scan_id := sid; pages_scanned := 0; total_pages_found := 0;
                   current_url := None; status := "running" |} ->
  book_inv cfg sid e1 false.
Proof.
  intros Hc Hp Hv _ _ _ Ht Hpr. unfold book_inv.
  rewrite Hc, Hp, Hv, Ht, Hpr. cbn.
  repeat split; try constructor; try lia.
  intros x [].
Qed.

Lemma run_crawl_book net budget cfg sid e ps :
  run_crawl net budget cfg sid = Ok (e, ps) ->
  ps = pages e /\ config e = cfg /\
  ((status (progress e) = "blocked_by_robots" /\ pages e = []) \/
   status (progress e) = "timeout" \/ status (progress e) = "completed") /\
  scan_id (progress e) = sid /\
  pages_scanned (progress e) = Z.of_nat (length ps) /\
  total_elements e = count_elements ps /\
  NoDup (visited e) /\ NoDup (map pr_url ps) /\ incl (map pr_url ps) (visited e) /\
  (Z.of_nat (length ps) <= Z.max 0 (max_pages cfg))%Z.
Proof.
  intros H.
  destruct (run_crawl_outcome net budget cfg sid (book_inv cfg sid) e ps
              (book_inv_step net cfg sid)
              ltac:(intros; eapply book_inv_init; eauto) H)
    as [-> [(Hc & Hs & Hi & Hp & Hv & _ & _ & Ht & Hn) |
               [e2 [h [(Bc & Bs & Bi & Bn & Bt & Bv & Bu & Bin & Bcap)
                      (Ec & Ep & Ev & Et & _ & _ & Ei & En & Est)]]]]].
  - rewrite Hp, Hv in *. split; [reflexivity|]. split; [exact Hc|].
    split; [left; auto|]. rewrite Hn, Ht, Hi.
    repeat split; try constructor.
    + intros x [].
    + cbn [length]. lia.
  - split; [reflexivity|]. split; [congruence|].
    split.
    { destruct Est as [Et'|[Ec'|[Es' Hne]]]; [right; left; exact Et'
      | right; right; exact Ec' | congruence]. }
    rewrite Ep, Ev, Et, Ei, En. repeat split; auto.
Qed.

End BookFacts3.

Module QueueFacts.
Import Py Models Browser Engine CrawlRelations VisitFacts LoopFacts BookFacts NormalizeFacts.

Lemma normalize_again u n : _normalize_url u = Ok n -> _normalize_url n = Ok n.
Proof.
  intros H. destruct (normalize_shape u n H) as [H1 H2].
  exact (normalize_fixed n H1 H2).
Qed.

(** What the link loop of [_visit_page] appends to the queue. *)
Lemma enqueue_links_queued links d e :
  base_domain (fst (enqueue_links links d e)) = base_domain e /\
  visited (fst (enqueue_links links d e)) = visited e /\
  exists new, queue (fst (enqueue_links links d e)) = (queue e ++ new)%list /\
    Forall (fun x => snd x = (d + 1)%Z /\
                     _is_crawlable (base_domain e) (fst x) = Ok true /\
                     _normalize_url (fst x) = Ok (fst x) /\
                     ~ In (fst x) (visited e) /\
                     exists l, In l links /\ _normalize_url l = Ok (fst x)) new.
Proof.
  revert e. induction links as [|link rest IH]; intros e.
  - cbn. repeat split. exists []. rewrite app_nil_r. auto.
  - cbn [enqueue_links]. cbv beta iota zeta delta [mbind ret lift gets modify].
    destruct (_normalize_url link) as [norm|msg] eqn:En;
      [|cbn; repeat split; exists []; rewrite app_nil_r; auto].
    destruct (mem_str norm (visited e)) eqn:Em; cbv beta iota zeta.
    + 
      destruct (IH e) as (Hb & Hv & new & Hq & Hf).
      destruct (enqueue_links rest d e) as [e' r'] eqn:Er.
      cbn [fst] in *. repeat split; auto. exists new. split; [exact Hq|].
      eapply Forall_impl; [|exact Hf]. cbn.
      intros x (A1 & A2 & A3 & A4 & l & Hl & Hn). repeat split; auto.
      exists l. split; [right; exact Hl | exact Hn].
    + 
      destruct (_is_crawlable (base_domain e) norm) as [[|]|msg] eqn:Ec.
      * remember (set_queue e (queue e ++ [(norm, (d + 1)%Z)])%list) as e1.
        destruct (IH e1) as (Hb & Hv & new & Hq & Hf).
        destruct (enqueue_links rest d e1) as [e' r'] eqn:Er.
        cbn [fst] in *. subst e1. cbn [base_domain visited queue set_queue] in *.
        repeat split; auto.
        exists ((norm, (d + 1)%Z) :: new). split.
        { rewrite Hq, <- app_assoc. reflexivity. }
        constructor.
        { cbn [fst snd]. repeat split; auto.
          - exact (normalize_again _ _ En).
          - exact (mem_str_false_not_in _ _ Em).
          - exists link. split; [left; reflexivity | exact En]. }
        eapply Forall_impl; [|exact Hf]. cbn.
        intros x (A1 & A2 & A3 & A4 & l & Hl & Hn). repeat split; auto.
        exists l. split; [right; exact Hl | exact Hn].
      * destruct (IH e) as (Hb & Hv & new & Hq & Hf).
        destruct (enqueue_links rest d e) as [e' r'] eqn:Er.
        cbn [fst] in *. repeat split; auto. exists new. split; [exact Hq|].
        eapply Forall_impl; [|exact Hf]. cbn.
        intros x (A1 & A2 & A3 & A4 & l & Hl & Hn). repeat split; auto.
        exists l. split; [right; exact Hl | exact Hn].
      * cbn. repeat split. exists []. rewrite app_nil_r. auto.
Qed.

End QueueFacts.

Module QueueFacts2.
Import Py Models Browser Engine CrawlRelations VisitFacts LoopFacts BookFacts
       NormalizeFacts QueueFacts SeedDefs BookFacts3.

Section EnqVisit.
Variable P : Engine -> Engine -> Prop.
Variable d : Z.
Hypothesis P_refl : forall e, P e e.
Hypothesis P_trans : forall e1 e2 e3, P e1 e2 -> P e2 e3 -> P e1 e3.
Hypothesis P_enq : forall links, preserves P (enqueue_links links d).
Hypothesis P_consent : forall e u r, P e (record_consent e u r).

Lemma visit_body_pres_enq net u h : preserves P (visit_body net u d h).
Proof.
  unfold visit_body. destruct (goto net u) as [msg| |p].
  - intros e. apply P_refl.
  - apply (pres_ret _ P_refl).
  - destruct (400 <=? _)%Z; [apply (pres_ret _ P_refl)|].
    apply (pres_bind _ P_trans); [apply (pres_gets _ P_refl)|intros base].
    apply (pres_bind _ P_trans); [apply (pres_lift _ P_refl)|intros same].
    destruct (negb same); [apply (pres_ret _ P_refl)|].
    destruct (_ && _); [apply (pres_ret _ P_refl)|].
    cbv zeta.
    apply (pres_bind _ P_trans).
    { destruct h; [apply pres_modify; intros e; apply P_consent
                  | apply (pres_ret _ P_refl)]. }
    intros _. apply (pres_bind _ P_trans); [apply (pres_gets _ P_refl)|intros md].
    apply (pres_bind _ P_trans); [|intros _; apply (pres_ret _ P_refl)].
    destruct (d <? md)%Z; [apply P_enq | apply (pres_ret _ P_refl)].
Qed.

Lemma visit_page_pres_enq net u h e : P e (fst (_visit_page net u d h e)).
Proof.
  pose proof (visit_body_pres_enq net u h e) as H.
  unfold _visit_page. destruct (visit_body net u d h e). exact H.
Qed.

End EnqVisit.


(** A visit keeps the base domain and only appends queue entries that are
    in normal form and accepted by [_is_crawlable]. *)
Lemma visit_page_queued net u d h e :
  base_domain (fst (_visit_page net u d h e)) = base_domain e /\
  exists new, queue (fst (_visit_page net u d h e)) = (queue e ++ new)%list /\
    Forall (good_entry (base_domain e)) new.
Proof.
  apply (visit_page_pres_enq
           (fun e e' => base_domain e' = base_domain e /\
              exists new, queue e' = (queue e ++ new)%list /\
                          Forall (good_entry (base_domain e)) new) d).
  - intros e0. split; [reflexivity|]. exists []. rewrite app_nil_r. auto.
  - intros e1 e2 e3 [B1 [n1 [Q1 F1]]] [B2 [n2 [Q2 F2]]]. split; [congruence|].
    exists (n1 ++ n2)%list. split; [rewrite Q2, Q1, app_assoc; reflexivity|].
    apply Forall_app. split; [exact F1|]. rewrite <- B1. exact F2.
  - intros links e0.
    destruct (enqueue_links_queued links d e0) as (Hb & _ & new & Hq & Hf).
    split; [exact Hb|]. exists new. split; [exact Hq|].
    eapply Forall_impl; [|exact Hf]. intros x (_ & A & B & _). split; assumption.
  - intros e0 u0 r. split; [reflexivity|]. exists []. rewrite app_nil_r. auto.
Qed.

Lemma seed_inv_step net start base e h e' h' :
  seed_inv start base e h -> loop_step net e h = Continue e' h' ->
  seed_inv start base e' h'.
Proof.
  intros (Hb & Hs & Hc) Es.
  pose proof (loop_step_cases net e h) as Hcs. rewrite Es in Hcs.
  destruct Hcs as [u [d [q [Eq [[-> _] | [n [En [_ [_ [_ ->]]]]]]]]]].
  - (* the entry is skipped *)
    split; [exact Hb|]. split; [exact Hs|].
    destruct Hc as [[Hp Hq] | (p & rest & Hp & Hu & Hd & Fq & Fr)].
    + left. split; [exact Hp|]. cbn [queue set_queue].
      rewrite Eq in Hq. destruct Hq as [Hq|Hq]; inversion Hq. right. reflexivity.
    + right. exists p, rest. cbn [pages queue set_queue]. rewrite Eq in Fq.
      inversion Fq. auto.
  - (* the entry is visited *)
    assert (Hfirst : (pages e = [] /\ u = start /\ d = 0%Z /\ q = []) \/
              exists p rest, pages e = p :: rest /\ pr_url p = start /\ depth p = 0%Z /\
                good_entry base (u, d) /\ Forall (good_entry base) q /\
                Forall (fun r => _is_crawlable base (pr_url r) = Ok true /\
                       _normalize_url (pr_url r) = Ok (pr_url r)) rest).
    { destruct Hc as [[Hp Hq] | (p & rest & Hp & Hu & Hd & Fq & Fr)].
      - rewrite Eq in Hq. destruct Hq as [Hq|Hq]; inversion Hq. left. auto.
      - rewrite Eq in Fq. inversion Fq. right. exists p, rest. auto 10. }
    assert (Hn : n = u).
    { destruct Hfirst as [(_ & -> & _ & _) | (p & rest & _ & _ & _ & [_ Gn] & _)].
      - rewrite Hs in En. inversion En. reflexivity.
      - cbn [fst] in Gn. rewrite Gn in En. inversion En. reflexivity. }
    subst n.
    pose proof (visit_page_result net u d (negb h) (before_visit e q u)) as [Ru Rd].
    pose proof (visit_page_keeps net u d (negb h) (before_visit e q u)) as (_ & _ & _ & Kp).
    destruct (visit_page_queued net u d (negb h) (before_visit e q u))
      as [Vb [new [Vq Vf]]].
    cbn [base_domain before_visit set_progress set_visited set_queue] in Vb, Vf, Vq.
    unfold seed_inv. cbn [base_domain pages queue append_page].
    split; [congruence|]. split; [exact Hs|]. right.
    rewrite Kp. cbn [pages before_visit set_progress set_visited set_queue].
    rewrite Vq. rewrite Hb in Vf.
    destruct Hfirst as [(Hp & -> & -> & ->) | (p & rest & Hp & Hu & Hd & [Gc Gn] & Fq & Fr)].
    + eexists _, []. rewrite Hp. cbn [app].
      repeat split; auto.
    + exists p, (rest ++ [snd (_visit_page net u d (negb h) (before_visit e q u))])%list.
      rewrite Hp. cbn [app].
      repeat split; auto.
      * apply Forall_app. split; [exact Fq|exact Vf].
      * apply Forall_app. split; [exact Fr|]. constructor; [|constructor].
        rewrite Ru. split; assumption.
Qed.

Lemma seed_inv_init cfg e1 start pp :
  Url.urlparse (url cfg) = Ok pp -> base_domain e1 = Url.pr_netloc pp ->
  _normalize_url (url cfg) = Ok start -> pages e1 = [] ->
  queue e1 = [(start, 0%Z)] -> seed_inv start (Url.pr_netloc pp) e1 false.
Proof.
  intros _ Hb Hn Hp Hq. split; [exact Hb|].
  split; [exact (normalize_again _ _ Hn)|]. left. auto.
Qed.

End QueueFacts2.

Module CrawlExtras.
Import Py Models Browser Engine CrawlRelations VisitFacts LoopFacts BookFacts
       NormalizeFacts QueueFacts SeedDefs BookFacts3 QueueFacts2.

(** The pages of a crawl: the first is the normalized start URL at depth
    0; every later one has a URL in normal form that [_is_crawlable]
    accepts for the start URL's host. *)
Theorem run_crawl_pages_crawlable net budget cfg sid e ps :
  run_crawl net budget cfg sid = Ok (e, ps) ->
  match ps with
  | [] => True
  | p :: rest =>
      exists pp start, Url.urlparse (url cfg) = Ok pp /\
        _normalize_url (url cfg) = Ok start /\ pr_url p = start /\ depth p = 0%Z /\
        Forall (fun r => _is_crawlable (Url.pr_netloc pp) (pr_url r) = Ok true /\
                         _normalize_url (pr_url r) = Ok (pr_url r)) rest
  end.
Proof.
  intros H.
  destruct (run_crawl_outcome net budget cfg sid
              (fun e h => exists pp start, Url.urlparse (url cfg) = Ok pp /\
                 _normalize_url (url cfg) = Ok start /\
                 seed_inv start (Url.pr_netloc pp) e h) e ps)
    as [-> [(_ & _ & _ & Hp & _) | (e2 & h & (pp & start & Hpp & Hst & Hs) & _ & Ep & _)]].
  - intros e0 h0 e' h' (pp & start & A & B & C) Es.
    exists pp, start. split; [exact A|]. split; [exact B|]. eapply seed_inv_step; eauto.
  - intros e1 start pp Hpp Hb Hst _ Hp _ Hq _ _ _ _.
    exists pp, start. split; [exact Hpp|]. split; [exact Hst|]. eapply seed_inv_init; eauto.
  - exact H.
  - rewrite Hp. exact I.
  - rewrite Ep. destruct Hs as (_ & _ & [[-> _] | (p & rest & -> & Hu & Hd & _ & Fr)]);
      [exact I|].
    exists pp, start. auto.
Qed.

End CrawlExtras.

Module CrawlExtras2.
Import Py Models Browser Engine Fixtures ExtraDefs BookFacts3.

(** How a crawl ends: its progress carries the scan id it was given, and
    its status is [completed] or [timeout], or [blocked_by_robots] with no
    pages. *)
Theorem run_crawl_final_status net budget cfg sid e ps :
  run_crawl net budget cfg sid = Ok (e, ps) ->
  scan_id (progress e) = sid /\
  (status (progress e) = "completed" \/ status (progress e) = "timeout" \/
   (status (progress e) = "blocked_by_robots" /\ ps = [])).
Proof.
  intros H.
  destruct (run_crawl_book net budget cfg sid e ps H)
    as (-> & _ & Hst & Hsid & _).
  split; [exact Hsid|].
  destruct Hst as [[A B] | [A | A]]; auto.
Qed.

(** The counters of a finished crawl agree with its pages: [pages_scanned]
    is their number and [total_elements] the number of their elements. *)
Theorem run_crawl_counters net budget cfg sid e ps :
  run_crawl net budget cfg sid = Ok (e, ps) ->
  pages_scanned (progress e) = Z.of_nat (length ps) /\
  total_elements e = Z.of_nat (list_sum (map (fun p => length (elements p)) ps)).
Proof.
  intros H.
  destruct (run_crawl_book net budget cfg sid e ps H)
    as (_ & _ & _ & _ & Hn & Ht & _).
  split; [exact Hn | exact Ht].
Qed.

(** No URL is visited twice: the URLs of the returned pages are pairwise
    distinct, and each is in the engine's visited set. *)
Theorem run_crawl_no_duplicate_pages net budget cfg sid e ps :
  run_crawl net budget cfg sid = Ok (e, ps) ->
  NoDup (map pr_url ps) /\ incl (map pr_url ps) (visited e).
Proof.
  intros H.
  destruct (run_crawl_book net budget cfg sid e ps H)
    as (_ & _ & _ & _ & _ & _ & _ & Hd & Hi & _).
  split; assumption.
Qed.

(** A crawl returns at most [max_pages] pages (none when [max_pages] is
    not positive). *)
Theorem run_crawl_page_cap net budget cfg sid e ps :
  run_crawl net budget cfg sid = Ok (e, ps) ->
  (Z.of_nat (length ps) <= Z.max 0 (max_pages cfg))%Z.
Proof.
  intros H.
  destruct (run_crawl_book net budget cfg sid e ps H)
    as (_ & _ & _ & _ & _ & _ & _ & _ & _ & Hc).
  exact Hc.
Qed.

Lemma run_crawl_final_status_witness :
  run_crawl site 10 site_cfg "s1" =
    Ok (fst (outcome (run_crawl site 10 site_cfg "s1")),
        snd (outcome (run_crawl site 10 site_cfg "s1"))) /\
  scan_id (progress (fst (outcome (run_crawl site 10 site_cfg "s1")))) = "s1" /\
  (status (progress (fst (outcome (run_crawl site 10 site_cfg "s1")))) = "completed" \/
   status (progress (fst (outcome (run_crawl site 10 site_cfg "s1")))) = "timeout" \/
   (status (progress (fst (outcome (run_crawl site 10 site_cfg "s1")))) = "blocked_by_robots" /\
    snd (outcome (run_crawl site 10 site_cfg "s1")) = [])).
Proof.
  split; [vm_compute; reflexivity|].
  apply (run_crawl_final_status site 10 site_cfg "s1"). vm_compute; reflexivity.
Defined.

End CrawlExtras2.

Module PageFacts.
Import Py Models Browser Engine CrawlRelations VisitFacts LoopFacts BookFacts BookFacts3 PageDefs.


Lemma visit_page_shape net u d h e :
  page_shape net (snd (_visit_page net u d h e)).
Proof.
  pose proof (visit_page_result net u d h e) as [Ru _].
  revert Ru. unfold page_shape.
  unfold _visit_page, visit_body.
  destruct (goto net u) as [msg| |p] eqn:Eg; [cbn; intros; left; eauto | cbn; intros; left; eauto|].
  destruct (400 <=? lp_status p)%Z eqn:E4; [cbn; intros; left; eauto|].
  unfold mbind, gets, lift.
  destruct (_is_same_domain (base_domain e) (lp_final_url p)) as [same|msg];
    [|cbn; intros; left; eauto].
  destruct (negb same); [cbn; intros; left; eauto|].
  destruct (_ && _); [cbn; intros; left; eauto|].
  match goal with |- context [ (if h then ?a else ?b) e ] =>
    destruct ((if h then a else b) e) as [e1 [[]|msg]]; [|cbn; intros; left; eauto] end.
  match goal with |- context [ (if ?c then ?a else ?b) e1 ] =>
    destruct ((if c then a else b) e1) as [e2 [[]|msg]]; cbn; intros; [|left; eauto] end.
  right. split; [reflexivity|]. exists p. repeat split; auto.
  apply Z.leb_gt. exact E4.
Qed.


Lemma shape_inv_step net e h e' h' :
  shape_inv net e h -> loop_step net e h = Continue e' h' -> shape_inv net e' h'.
Proof.
  intros Hs Es.
  pose proof (loop_step_cases net e h) as Hcs. rewrite Es in Hcs.
  destruct Hcs as [u [d [q [Eq [[-> _] | [n [_ [_ [_ [_ ->]]]]]]]]]].
  - exact Hs.
  - unfold shape_inv. cbn [pages append_page].
    pose proof (visit_page_keeps net n d (negb h) (before_visit e q n)) as (_ & _ & _ & ->).
    cbn [pages before_visit set_progress set_visited set_queue].
    apply Forall_app. split; [exact Hs|]. constructor; [|constructor].
    apply visit_page_shape.
Qed.

Lemma run_crawl_page_shape_lemma net budget cfg sid e ps :
  run_crawl net budget cfg sid = Ok (e, ps) -> Forall (page_shape net) ps.
Proof.
  intros H.
  destruct (run_crawl_outcome net budget cfg sid (shape_inv net) e ps
              (shape_inv_step net)) as [-> [(_ & _ & _ & Hp & _) | (e2 & h & Hs & _ & Ep & _)]].
  - intros e1 start pp _ _ _ _ Hp _ _ _ _ _ _. unfold shape_inv. rewrite Hp. constructor.
  - exact H.
  - rewrite Hp. constructor.
  - rewrite Ep. exact Hs.
Qed.

(** Every page a crawl returns either carries an error and no elements,
    or has no error, the status code of a response below 400 that loaded
    its URL, and the elements extracted from that response. *)
Theorem run_crawl_page_shape net budget cfg sid e ps :
  run_crawl net budget cfg sid = Ok (e, ps) -> Forall (page_shape net) ps.
Proof. apply run_crawl_page_shape_lemma. Qed.

End PageFacts.

Module ComponentFacts.
Import Py Models Browser ComponentDefs.

(** With an http or https base URL that has a host, the robots.txt URL
    is [<scheme>://<host>/robots.txt]. *)
Theorem robots_url_at_root base b :
  Url.urlparse base = Ok b ->
  mem_str (Url.pr_scheme b) ["http"; "https"] = true ->
  Url.pr_netloc b <> EmptyString ->
  Robots.urljoin_abs_path base "/robots.txt" =
    Ok (Url.pr_scheme b ++ "://" ++ Url.pr_netloc b ++ "/robots.txt").
Proof.
  intros Hp Hs Hn. unfold Robots.urljoin_abs_path.
  destruct (String.eqb base EmptyString) eqn:Eb.
  { apply String.eqb_eq in Eb. subst base. vm_compute in Hp.
    inversion Hp; subst b. vm_compute in Hs. discriminate. }
  rewrite Hp. cbn [Py.bind].
  assert (Hsch : Url.pr_scheme b = "http" \/ Url.pr_scheme b = "https").
  { unfold mem_str in Hs. cbn [existsb] in Hs.
    destruct (String.eqb (Url.pr_scheme b) "http") eqn:E1;
      [left; apply String.eqb_eq; exact E1|].
    destruct (String.eqb (Url.pr_scheme b) "https") eqn:E2;
      [right; apply String.eqb_eq; exact E2| discriminate]. }
  destruct (Url.pr_netloc b) as [|c nb]; [contradiction|].
  destruct Hsch as [Hsch|Hsch]; rewrite Hsch; reflexivity.
Qed.

(** [check_robots_txt] reports a path as disallowed only when robots.txt
    was fetched with status 200 and the parser refused the path; every
    other answer (request error, 404, any other status) gives the
    "not found, all allowed" result.  The listed disallowed paths are
    never empty. *)
Theorem check_robots_txt_cases net base path r :
  Robots.check_robots_txt net base path = Ok r ->
  (r = Robots.not_found_result \/
   exists u content, Robots.urljoin_abs_path base "/robots.txt" = Ok u /\
     robots_fetch net u = RobotsHttp 200 content /\ found r = true /\
     allowed r = robots_is_allowed net content user_agent path) /\
  Forall (fun p => p <> EmptyString) (disallowed_paths r).
Proof.
  unfold Robots.check_robots_txt.
  destruct (Robots.urljoin_abs_path base "/robots.txt") as [u|msg]; cbn [Py.bind];
    [|discriminate].
  assert (Hnf : Forall (fun p => p <> EmptyString)
                  (disallowed_paths Robots.not_found_result)) by constructor.
  destruct (robots_fetch net u) as [|st content] eqn:Ef.
  { intros H; inversion H; subst r. split; [left; reflexivity | exact Hnf]. }
  destruct (st =? 404)%Z eqn:E4.
  { intros H; inversion H; subst r. split; [left; reflexivity | exact Hnf]. }
  destruct (negb (st =? 200)%Z) eqn:E2.
  { intros H; inversion H; subst r. split; [left; reflexivity | exact Hnf]. }
  intros H; inversion H; subst r. cbn [found allowed disallowed_paths].
  apply negb_false_iff, Z.eqb_eq in E2. subst st.
  split; [right; exists u, content; auto|].
  unfold Robots.collect_disallowed. apply Forall_flat_map.
  apply Forall_forall. intros line _.
  destruct (is_prefix "disallow:" _); [|constructor].
  match goal with |- Forall _ (if String.eqb ?p EmptyString then [] else [?p]) =>
    destruct (String.eqb p EmptyString) eqn:Ep; [constructor|] end.
  constructor; [|constructor]. intros Hc. rewrite Hc in Ep. discriminate.
Qed.


(** [detect_analytics] names each framework at most once, only names from
    its table, and nothing when the script raised. *)
Theorem detect_analytics_names p :
  NoDup (Analytics.detect_analytics p) /\
  incl (Analytics.detect_analytics p) analytics_names /\
  (lp_window p = None -> Analytics.detect_analytics p = []).
Proof.
  unfold Analytics.detect_analytics.
  destruct (lp_window p) as [w|]; [|repeat split; [constructor | intros x [] ]].
  split; [|split; [|discriminate]].
  - unfold Analytics.detection_js.
    destruct (dataLayer_is_array w), (satellite_getVar_fn w), (utag_truthy w),
      (analytics_track_fn w), (gtag_fn w), (s_t_fn w), (hj_fn w);
      cbn [app]; repeat constructor; cbn; intuition discriminate.
  - unfold Analytics.detection_js, analytics_names. intros x Hx.
    repeat (apply in_app_or in Hx; destruct Hx as [Hx|Hx]);
      repeat match type of Hx with
             | In _ (if ?b then _ else _) => destruct b
             end; cbn in Hx; intuition (subst; cbn; tauto).
Qed.

End ComponentFacts.

Module ConsentExtras.
Import Py Models Browser Consent ComponentDefs.


(** The shape of a consent result: [detected] is false exactly when the
    action is [none] (then the framework is [unknown]); the action is one
    of five; a note is attached exactly for [bypass_css] and [failed]. *)
Theorem handle_consent_result_shape d :
  let r := handle_consent d in
  (detected r = false <-> action r = "none") /\
  (detected r = false -> framework r = "unknown") /\
  In (action r) consent_actions /\
  (cr_notes r <> None <-> action r = "bypass_css" \/ action r = "failed").
Proof.
  cbv zeta. unfold handle_consent.
  destruct (banner_visible d); cbn [negb].
  2:{ cbn. intuition (try discriminate; try congruence). }
  destruct (_try_click_selectors d ACCEPT_SELECTORS);
  [|destruct (_try_click_text d ACCEPT_TEXT_PATTERNS);
  [|destruct (_try_click_selectors d CLOSE_SELECTORS);
  [|destruct (_try_click_text d CLOSE_TEXT_PATTERNS);
  [|destruct (_try_dom_bypass d)]]]];
  cbn; intuition (try discriminate; try congruence).
Qed.

Lemma detect_framework_in_cases d sigs :
  (detect_framework_in d sigs = "unknown" /\
   Forall (fun x => forall v c, query d (snd x) <> QElem v c) sigs) \/
  exists sel v c, In (detect_framework_in d sigs, sel) sigs /\
                  query d sel = QElem v c.
Proof.
  induction sigs as [|[name sel] rest IH]; cbn [detect_framework_in].
  - left. split; [reflexivity | constructor].
  - destruct (query d sel) as [| |v c] eqn:Eq.
    + destruct IH as [[Hu Hf] | (s & v & c & Hi & Hq)].
      * left. split; [exact Hu|]. constructor; [|exact Hf].
        cbn. intros v c. rewrite Eq. discriminate.
      * right. exists s, v, c. split; [right; exact Hi | exact Hq].
    + destruct IH as [[Hu Hf] | (s & v & c & Hi & Hq)].
      * left. split; [exact Hu|]. constructor; [|exact Hf].
        cbn. intros v c. rewrite Eq. discriminate.
      * right. exists s, v, c. split; [right; exact Hi | exact Hq].
    + right. exists sel, v, c. split; [left; reflexivity | exact Eq].
Qed.

(** The framework named by [detect_framework] is one whose signature
    selector found an element on the page; [unknown] is reported only when
    no signature selector found one. *)
Theorem detect_framework_found d :
  (detect_framework d = "unknown" /\
   Forall (fun x => forall v c, query d (snd x) <> QElem v c) FRAMEWORK_SIGNATURES) \/
  exists sel v c, In (detect_framework d, sel) FRAMEWORK_SIGNATURES /\
                  query d sel = QElem v c.
Proof. apply detect_framework_in_cases. Qed.

Lemma scan_candidates_true cands :
  scan_candidates cands = Some true ->
  exists c w h, In c cands /\ cand_visible c = true /\ cand_box c = Some (w, h) /\
    (30 < w)%Q /\ (15 < h)%Q /\ cand_click_ok c = true.
Proof.
  induction cands as [|c rest IH]; cbn [scan_candidates]; [discriminate|].
  destruct (cand_visible c) eqn:Ev.
  2:{ intros H. destruct (IH H) as (c' & w & h & A & B). exists c', w, h.
      split; [right; exact A | exact B]. }
  destruct (cand_box c) as [[w h]|] eqn:Eb.
  2:{ intros H. destruct (IH H) as (c' & w & h & A & B). exists c', w, h.
      split; [right; exact A | exact B]. }
  destruct (negb (Qle_bool w 30) && negb (Qle_bool h 15)) eqn:Es.
  - intros H. injection H as Hc. exists c, w, h.
    apply andb_true_iff in Es as [E1 E2].
    apply negb_true_iff in E1, E2.
    split; [left; reflexivity|]. split; [exact Ev|]. split; [exact Eb|].
    split; [|split; [|exact Hc]].
    + apply Qnot_le_lt. intros Hle. apply Qle_bool_iff in Hle. congruence.
    + apply Qnot_le_lt. intros Hle. apply Qle_bool_iff in Hle. congruence.
  - intros H. destruct (IH H) as (c' & w' & h' & A & B). exists c', w', h'.
    split; [right; exact A | exact B].
Qed.

Lemma scan_tags_true d tags text :
  scan_tags d tags text = Some true ->
  exists tag c w h, In tag tags /\ In c (firstn 3 (locate d tag text)) /\
    cand_visible c = true /\ cand_box c = Some (w, h) /\
    (30 < w)%Q /\ (15 < h)%Q /\ cand_click_ok c = true.
Proof.
  induction tags as [|tag rest IH]; cbn [scan_tags]; [discriminate|].
  destruct (scan_candidates (firstn 3 (locate d tag text))) as [b|] eqn:Es.
  - intros H. inversion H; subst b.
    destruct (scan_candidates_true _ Es) as (c & w & h & A & B).
    exists tag, c, w, h. split; [left; reflexivity | exact (conj A B)].
  - intros H. destruct (IH H) as (tag' & c & w & h & A & B).
    exists tag', c, w, h. split; [right; exact A | exact B].
Qed.

(** A click by visible text happens only on a visible match of a
    [button], [a], [span] or [div] among the first three for one of the
    texts, whose box is wider than 30 and taller than 15, and whose click
    went through. *)
Theorem try_click_text_clicked d patterns :
  _try_click_text d patterns = true ->
  exists text tag c w h, In text patterns /\ In tag ["button"; "a"; "span"; "div"] /\
    In c (firstn 3 (locate d tag text)) /\ cand_visible c = true /\
    cand_box c = Some (w, h) /\ (30 < w)%Q /\ (15 < h)%Q /\ cand_click_ok c = true.
Proof.
  induction patterns as [|text rest IH]; cbn [_try_click_text]; [discriminate|].
  destruct (scan_tags d ["button"; "a"; "span"; "div"] text) as [[|]|] eqn:Es.
  - intros _. destruct (scan_tags_true _ _ _ Es) as (tag & c & w & h & A & B).
    exists text, tag, c, w, h. split; [left; reflexivity | exact (conj A B)].
  - intros H. destruct (IH H) as (t & tag & c & w & h & A & B).
    exists t, tag, c, w, h. split; [right; exact A | exact B].
  - intros H. destruct (IH H) as (t & tag & c & w & h & A & B).
    exists t, tag, c, w, h. split; [right; exact A | exact B].
Qed.

(** A click by selector happens only on the first selector of the list
    whose element is visible and whose click went through. *)
Theorem try_click_selectors_clicked d selectors :
  _try_click_selectors d selectors = true ->
  exists pre sel post, selectors = (pre ++ sel :: post)%list /\
    query d sel = QElem true true /\
    Forall (fun s => query d s <> QElem true true) pre.
Proof.
  induction selectors as [|s rest IH]; cbn [_try_click_selectors]; [discriminate|].
  destruct (query d s) as [| |[|] [|]] eqn:Eq;
    try (intros _; exists [], s, rest; split; [reflexivity|]; split; [exact Eq | constructor]);
    intros H; destruct (IH H) as (pre & sel & post & -> & Hq & Hf);
    exists (s :: pre), sel, post; (split; [reflexivity|]); (split; [exact Hq|]);
    constructor; auto; rewrite Eq; discriminate.
Qed.

End ConsentExtras.

Module ExtractorExtras.
Import Py Models Browser Engine Extractor CrawlRelations LoopFacts PageDefs PageFacts BookFacts3.

Lemma scan_categories_key table t c :
  scan_categories table t = Some c -> In c (map fst table).
Proof.
  induction table as [|[cat pats] rest IH]; cbn [scan_categories]; [discriminate|].
  destruct (scan_patterns pats t).
  - intros H. inversion H. left. reflexivity.
  - intros H. right. exact (IH H).
Qed.

(** The built-in classifier answers only with one of the five category
    names of [PHARMA_PATTERNS], and never for a missing or empty text,
    whatever the URL. *)
Theorem pharma_builtin_categories text url :
  (forall c, _detect_pharma_builtin text url = Some c ->
     In c ["isi"; "adverse_event"; "patient_enrollment"; "hcp_gate"; "fair_balance"]) /\
  (is_falsy_str text = true -> _detect_pharma_builtin text url = None).
Proof.
  split.
  - intros c. unfold _detect_pharma_builtin.
    destruct text as [[|ch t]|]; [discriminate| |discriminate].
    destruct (scan_categories PHARMA_PATTERNS (lower (String ch t))) as [cat|] eqn:Es.
    + intros H. inversion H; subst cat. exact (scan_categories_key _ _ _ Es).
    + destruct url as [[|uc u]|]; [discriminate| |discriminate].
      destruct (_ || _); [intros H; inversion H; cbn; tauto|].
      destruct (_ || _); [intros H; inversion H; cbn; tauto|discriminate].
  - destruct text as [[|ch t]|]; cbn; [reflexivity|discriminate|reflexivity].
Qed.

Lemma first_keyword_member kws combined k :
  first_keyword kws combined = Some k -> In k kws.
Proof.
  induction kws as [|kw rest IH]; cbn [first_keyword]; [discriminate|].
  destruct (contains (lower kw) combined).
  - intros H. inversion H. left. reflexivity.
  - intros H. right. exact (IH H).
Qed.

(** Outside the built-in mode (a tag name other than [Pharma], or a
    non-empty keyword list), a label is always one of the configured
    keywords, exactly as written; no keywords, no label. *)
Theorem custom_label_is_keyword text url tag_name keywords k :
  (String.eqb tag_name "Pharma" && is_falsy_list keywords)%bool = false ->
  detect_tag_context text url tag_name keywords = Some k ->
  exists kws, keywords = Some kws /\ In k kws.
Proof.
  intros Hm. unfold detect_tag_context. rewrite Hm.
  destruct keywords as [[|kw rest]|]; [discriminate| |discriminate].
  destruct (strip_is_empty _); [discriminate|].
  intros H. exists (kw :: rest). split; [reflexivity|].
  exact (first_keyword_member _ _ _ H).
Qed.

Lemma extract_elements_fields p u tag kws :
  Forall (fun el => page_url el = u /\
            page_title el = (match lp_title_reread p with
                             | Some t => if String.eqb t EmptyString then None
                                         else Some t
                             | None => None
                             end) /\
            notes el = None) (extract_elements p u tag kws).
Proof.
  unfold extract_elements. destruct (lp_raw_elements p) as [raws|]; [|constructor].
  apply Forall_map. apply Forall_forall. intros raw _. cbn. auto.
Qed.

(** Every element recorded for a page of a crawl carries that page's URL
    and no notes; all elements of one page carry the same [page_title],
    which is [None] or a non-empty title. *)
Theorem run_crawl_element_page net budget cfg sid e ps :
  run_crawl net budget cfg sid = Ok (e, ps) ->
  Forall (fun p => exists t, t <> Some EmptyString /\
            Forall (fun el => page_url el = pr_url p /\
                      page_title el = t /\ notes el = None) (elements p)) ps.
Proof.
  intros H. pose proof (run_crawl_page_shape_lemma net budget cfg sid e ps H) as Hs.
  eapply Forall_impl; [|exact Hs]. cbv beta.
  intros r [(msg & _ & ->) | (_ & lp & _ & _ & _ & _ & ->)].
  - exists None. split; [discriminate | constructor].
  - eexists. split; [|eapply Forall_impl; [|apply extract_elements_fields];
                      cbv beta; intros el (A & B & C); eauto].
    destruct (lp_title_reread lp) as [t|]; [|discriminate].
    destruct (String.eqb t EmptyString) eqn:Et; [discriminate|].
    intros Heq. injection Heq as ->. discriminate.
Qed.

End ExtractorExtras.

Module ModelExtras.
Import Py Models Browser Engine CrawlRelations LoopFacts BookFacts3.

(** The validators of [ScanConfig] keep [max_pages] in [1..1000] and
    [max_depth] in [1..20], and leave values already in range as given.
    Afterwards [rate_limit < 0.5] is false: a value below 0.5 becomes 0.5
    and any other is kept, NaN included, so a NaN [rate_limit] passes the
    floor unchanged. *)
Theorem mk_ScanConfig_bounds u mp md rl extra :
  let c := mk_ScanConfig u mp md rl extra in
  url c = u /\
  (1 <= max_pages c <= 1000)%Z /\ (1 <= max_depth c <= 20)%Z /\
  float_lt (rate_limit c) (FFinite (1 # 2)) = false /\
  ((1 <= mp <= 1000)%Z -> max_pages c = mp) /\
  ((1 <= md <= 20)%Z -> max_depth c = md) /\
  (float_lt rl (FFinite (1 # 2)) = true -> rate_limit c = FFinite (1 # 2)) /\
  (float_lt rl (FFinite (1 # 2)) = false -> rate_limit c = rl) /\
  (rl = FNaN -> rate_limit c = FNaN).
Proof.
  cbv zeta. unfold mk_ScanConfig. cbn [url max_pages max_depth rate_limit].
  destruct (float_lt rl (FFinite (1 # 2))) eqn:Hl.
  - repeat split; try lia.
    all: first [ reflexivity | intros; reflexivity
               | intros Hx; rewrite Hl in Hx; discriminate
               | intros ->; discriminate Hl ].
  - repeat split; try lia.
    all: first [ exact Hl | intros; reflexivity | intros _; exact eq_refl
               | intros Hx; rewrite Hl in Hx; discriminate | intros ->; reflexivity ].
Qed.

(** A scan created through the API crawls at most 1000 pages, none deeper
    than 20 levels. *)
Theorem created_scan_limits net budget body sid e ps :
  run_crawl net budget (create_scan_config body) sid = Ok (e, ps) ->
  (length ps <= 1000)%nat /\ Forall (fun p => (0 <= depth p <= 20)%Z) ps.
Proof.
  intros H.
  destruct (run_crawl_book net budget _ sid e ps H)
    as (_ & _ & _ & _ & _ & _ & _ & _ & _ & Hc).
  assert (Hb : (1 <= max_pages (create_scan_config body) <= 1000)%Z /\
               (1 <= max_depth (create_scan_config body) <= 20)%Z).
  { unfold create_scan_config, mk_ScanConfig. cbn [max_pages max_depth]. lia. }
  split; [lia|].
  destruct (run_crawl_inv net budget _ sid (depth_inv (create_scan_config body)) e ps
              (depth_inv_step net _)
              ltac:(intros e1 s Hc1 Hp Hq _; unfold depth_inv; rewrite Hc1, Hp, Hq;
                    split; [reflexivity|]; split; constructor; cbn; [lia|constructor])
              ltac:(intros e0 h p Hc0; exact Hc0) H)
    as [-> [[_ [Hp _]] | [h [_ [Hp _]]]]].
  - rewrite Hp. constructor.
  - eapply Forall_impl; [|exact Hp]. cbv beta. intros p Hd. lia.
Qed.

End ModelExtras.

Module ScansFacts.
Import Py Models Browser Engine ScansApi ScanCounts.

Lemma map_chars_length f s : String.length (map_chars f s) = String.length s.
Proof. induction s as [|c s IH]; cbn; [reflexivity | rewrite IH; reflexivity]. Qed.

Lemma substring_0_length n s :
  String.length (substring 0 n s) = Nat.min n (String.length s).
Proof.
  revert n. induction s as [|c s IH]; intros [|n]; cbn; auto.
Qed.

Lemma forall_chars_substring_0 p n s :
  forall_chars p s = true -> forall_chars p (substring 0 n s) = true.
Proof.
  revert n. induction s as [|c s IH]; intros [|n]; cbn; auto.
  intros H. apply andb_true_iff in H as [H1 H2]. rewrite H1. cbn. apply IH, H2.
Qed.

Lemma map_chars_safe s : forall_chars scan_id_char (map_chars safe_char s) = true.
Proof.
  induction s as [|c s IH]; cbn; [reflexivity|].
  rewrite IH, andb_true_r. unfold safe_char.
  destruct (scan_id_char c) eqn:E; [exact E | reflexivity].
Qed.

Lemma map_chars_safe_id s : forall_chars scan_id_char s = true -> map_chars safe_char s = s.
Proof.
  induction s as [|c s IH]; cbn [map_chars forall_chars]; [reflexivity|].
  intros H. apply andb_true_iff in H as [H1 H2]. unfold safe_char at 1.
  rewrite H1, (IH H2). reflexivity.
Qed.

(** A generated scan id is the timestamp, ["_"] and at most 60
    characters of the domain, all letters, digits, ["_"] or ["-"]; a
    domain already made of these is kept as it is (cut at 60). *)
Theorem generate_scan_id_safe ts domain :
  exists s, _generate_scan_id ts domain = (ts ++ "_" ++ s)%string /\
    String.length s = Nat.min 60 (String.length domain) /\
    forall_chars scan_id_char s = true /\
    (forall_chars scan_id_char domain = true -> s = substring 0 60 domain).
Proof.
  exists (substring 0 60 (map_chars safe_char domain)). split; [reflexivity|].
  split; [rewrite substring_0_length, map_chars_length; reflexivity|].
  split; [apply forall_chars_substring_0, map_chars_safe|].
  intros H. rewrite (map_chars_safe_id _ H). reflexivity.
Qed.



Lemma incr_count_get t k m :
  get_count t (incr_count k m) = (get_count t m + if String.eqb k t then 1 else 0)%Z.
Proof.
  induction m as [|[k' n] rest IH]; cbn [incr_count get_count].
  - cbn. destruct (String.eqb k t); reflexivity.
  - destruct (String.eqb k' k) eqn:E1.
    + apply String.eqb_eq in E1. subst k'. cbn [get_count].
      destruct (String.eqb k t); lia.
    + cbn [get_count]. destruct (String.eqb k' t) eqn:E2.
      * apply String.eqb_eq in E2. subst k'.
        destruct (String.eqb k t) eqn:E3; [|lia].
        apply String.eqb_eq in E3. subst k. rewrite String.eqb_refl in E1. discriminate.
      * exact IH.
Qed.

Lemma incr_count_keys k m :
  map fst (incr_count k m) = map fst m \/
  (map fst (incr_count k m) = (map fst m ++ [k])%list /\ ~ In k (map fst m)).
Proof.
  induction m as [|[k' n] rest IH]; cbn [incr_count map fst].
  - right. split; [reflexivity | intros []].
  - destruct (String.eqb k' k) eqn:E.
    + left. reflexivity.
    + cbn [map fst]. destruct IH as [-> | [-> Hn]]; [left; reflexivity|].
      right. split; [reflexivity|]. intros [Hk|Hk]; [|exact (Hn Hk)].
      subst k'. rewrite String.eqb_refl in E. discriminate.
Qed.

Lemma incr_count_sum k m : sumZ (map snd (incr_count k m)) = (sumZ (map snd m) + 1)%Z.
Proof.
  induction m as [|[k' n] rest IH]; cbn [incr_count map snd sumZ fold_right].
  - cbn. lia.
  - destruct (String.eqb k' k); cbn [map snd sumZ fold_right] in *; unfold sumZ in *; lia.
Qed.

Lemma count_rows_acc rows tc pc :
  NoDup (map fst tc) ->
  let '(tc', pc') :=
    fold_left (fun acc el =>
      let '(tc, pc) := acc in
      (incr_count (element_type el) tc,
       if is_falsy_str (pharma_context el) then pc else (pc + 1)%Z)) rows (tc, pc) in
  NoDup (map fst tc') /\
  (forall t, get_count t tc' = (get_count t tc + rows_of_type t rows)%Z) /\
  sumZ (map snd tc') = (sumZ (map snd tc) + Z.of_nat (length rows))%Z /\
  pc' = (pc + Z.of_nat (length (filter (fun el => negb (is_falsy_str (pharma_context el))) rows)))%Z.
Proof.
  revert tc pc. induction rows as [|el rest IH]; intros tc pc Hn.
  - cbn. repeat split; auto; intros; unfold rows_of_type; cbn; lia.
  - cbn [fold_left].
    assert (Hn' : NoDup (map fst (incr_count (element_type el) tc))).
    { destruct (incr_count_keys (element_type el) tc) as [-> | [-> Hk]]; [exact Hn|].
      apply NoDup_app; [exact Hn | repeat constructor; intros [] | ].
      intros x Hx [<- | []]. exact (Hk Hx). }
    specialize (IH _ (if is_falsy_str (pharma_context el) then pc else (pc + 1)%Z) Hn').
    destruct (fold_left _ rest _) as [tc' pc'].
    destruct IH as (A & B & C & D). split; [exact A|]. split; [|split].
    + intros t. rewrite B, incr_count_get. unfold rows_of_type. cbn [filter].
      destruct (String.eqb (element_type el) t); cbn [length]; lia.
    + rewrite C, incr_count_sum. cbn [length]. lia.
    + rewrite D. cbn [filter].
      destruct (is_falsy_str (pharma_context el)); cbn [negb length]; lia.
Qed.

(** The summary of [get_scan] is computed over all rows, whatever
    [hide_types] says: [total_elements] is their number, [by_type] has
    each type once with the number of rows of that type (so its counts add
    up to the total), and [pharma_flagged] counts the rows with a
    non-empty context. *)
Theorem get_scan_summary tag rows hide els s :
  get_scan true tag rows hide = Ok (els, s) ->
  sum_total_elements s = Z.of_nat (length rows) /\
  NoDup (map fst (sum_by_type s)) /\
  (forall t, get_count t (sum_by_type s) = rows_of_type t rows) /\
  sumZ (map snd (sum_by_type s)) = sum_total_elements s /\
  sum_pharma_flagged s =
    Z.of_nat (length (filter (fun el => negb (is_falsy_str (pharma_context el))) rows)).
Proof.
  unfold get_scan, count_rows. cbn [negb].
  pose proof (count_rows_acc rows [] 0%Z (NoDup_nil _)) as Hc.
  destruct (fold_left _ rows ([], 0%Z)) as [tc pc].
  destruct Hc as (A & B & C & D).
  intros H. inversion H; subst s. cbn [sum_total_elements sum_by_type sum_pharma_flagged].
  split; [reflexivity|]. split; [exact A|].
  split; [intros t; rewrite B; reflexivity|].
  split; [rewrite C; reflexivity | rewrite D; reflexivity].
Qed.

(** [get_scan] returns, in their order, exactly the rows whose
    lower-cased type is not among the hidden types; the hidden types are
    the non-blank comma-separated pieces of [hide_types], stripped and
    lower-cased, and with none of them every row is returned. *)
Theorem get_scan_hide_types tag rows hide els s :
  get_scan true tag rows hide = Ok (els, s) ->
  els = filter (fun el => negb (mem_str (lower (element_type el)) (excluded_types hide))) rows /\
  (excluded_types hide = [] -> els = rows) /\
  (forall x, In x (excluded_types hide) <->
     exists h piece, hide = Some h /\ In piece (split_on "," h) /\
       strip piece <> EmptyString /\ x = lower (strip piece)).
Proof.
  unfold get_scan, count_rows. cbn [negb].
  destruct (fold_left _ rows ([], 0%Z)) as [tc pc].
  intros H. inversion H; subst els s.
  assert (Hchar : forall x, In x (excluded_types hide) <->
     exists h piece, hide = Some h /\ In piece (split_on "," h) /\
       strip piece <> EmptyString /\ x = lower (strip piece)).
  { intros x. unfold excluded_types. split.
    - destruct hide as [[|c h]|]; [intros []| |intros []].
      intros Hx. apply in_map_iff in Hx as [piece [Hx Hp]].
      apply filter_In in Hp as [Hp Hs].
      exists (String c h), piece. repeat split; auto.
      intros He. rewrite He in Hs. discriminate.
    - intros (h & piece & -> & Hp & Hs & ->).
      destruct h as [|c h].
      + cbn in Hp. destruct Hp as [<- | []]. contradiction.
      + apply (in_map (fun t => lower (strip t))). apply filter_In. split; [exact Hp|].
        apply negb_true_iff, String.eqb_neq. exact Hs. }
  split; [|split; [|exact Hchar]].
  - destruct (excluded_types hide) as [|x ex]; [|reflexivity].
    first [reflexivity |
           symmetry; apply forallb_filter_id; apply forallb_forall; reflexivity].
  - intros He. rewrite He. reflexivity.
Qed.

(** [_run_scan] reads [p.analytics] on the first returned page, which
    raises: every crawl that returns a page leaves the scan [failed] with
    that message, and its elements are not stored. *)
Theorem run_scan_pages_fail net budget cfg sid e p rest :
  run_crawl net budget cfg sid = Ok (e, p :: rest) ->
  _run_scan net budget sid cfg =
    Ok [SetScanStatus "running";
        SetScanFailed "'PageResult' object has no attribute 'analytics'"].
Proof.
  unfold run_crawl, _run_scan.
  destruct (CrawlEngine_init cfg) as [e0|msg]; cbn [Py.bind]; [|discriminate].
  intros H. rewrite H.
  destruct (consent_result e) as [r|]; reflexivity.
Qed.

(** No run of [_run_scan] stores an element: it writes [running], then
    either [failed] or a results row reporting no pages. *)
Theorem run_scan_stores_no_element net budget sid cfg ws :
  _run_scan net budget sid cfg = Ok ws ->
  exists w, ws = [SetScanStatus "running"; w] /\
    match w with
    | SetScanFailed _ => True
    | SetScanResults _ n t _ _ _ _ _ _ _ => n = 0%Z /\ t = 0%Z
    | _ => False
    end.
Proof.
  unfold _run_scan.
  destruct (CrawlEngine_init cfg) as [e0|msg]; cbn [Py.bind]; [|discriminate].
  intros H. inversion H; subst ws. clear H.
  destruct (crawl net budget sid e0) as [[e ps]|msg]; [|eexists; split; [reflexivity | exact I]].
  destruct (consent_result e) as [r|];
  (destruct ps as [|p rest]; [|eexists; split; [reflexivity | exact I]]);
  cbn; eexists; (split; [reflexivity|]); split; reflexivity.
Qed.

End ScansFacts.

Module LinkFacts.
Import Py Models Browser Engine QueueFacts.

(** The link loop of [_visit_page] keeps the base domain and the visited
    set, and only appends entries [(norm, depth + 1)] where [norm] is the
    normal form of one of the page's links, not yet visited, in normal
    form itself, and accepted by [_is_crawlable]. *)
Theorem visit_links_queued links d e :
  base_domain (fst (enqueue_links links d e)) = base_domain e /\
  visited (fst (enqueue_links links d e)) = visited e /\
  exists new, queue (fst (enqueue_links links d e)) = (queue e ++ new)%list /\
    Forall (fun x => snd x = (d + 1)%Z /\
                     _is_crawlable (base_domain e) (fst x) = Ok true /\
                     _normalize_url (fst x) = Ok (fst x) /\
                     ~ In (fst x) (visited e) /\
                     exists l, In l links /\ _normalize_url l = Ok (fst x)) new.
Proof. apply enqueue_links_queued. Qed.

End LinkFacts.

Module UrlExtras.
Import Py Engine NormalizeFacts.

(** A normalized URL has no ["#"] and does not end with ["/"]. *)
Theorem normalize_url_no_fragment u v :
  _normalize_url u = Ok v ->
  has_char "#" v = false /\ ends_with_char "/" v = false.
Proof. apply normalize_shape. Qed.

End UrlExtras.

Module ExtraWitnesses.
Import Py Models Browser Engine Fixtures ExtraFixtures ScansApi ScanCounts
       CrawlExtras CrawlExtras2 PageDefs PageFacts ExtractorExtras ModelExtras
       ComponentFacts ConsentExtras ScansFacts UrlExtras.

Lemma run_crawl_counters_witness :
  run_crawl site 10 site_cfg "s1" =
    Ok (fst (outcome (run_crawl site 10 site_cfg "s1")),
        snd (outcome (run_crawl site 10 site_cfg "s1"))) /\
  pages_scanned (progress (fst (outcome (run_crawl site 10 site_cfg "s1")))) =
    Z.of_nat (length (snd (outcome (run_crawl site 10 site_cfg "s1")))) /\
  total_elements (fst (outcome (run_crawl site 10 site_cfg "s1"))) =
    Z.of_nat (list_sum (map (fun p => length (elements p))
                          (snd (outcome (run_crawl site 10 site_cfg "s1"))))).
Proof.
  split; [vm_compute; reflexivity|].
  apply (run_crawl_counters site 10 site_cfg "s1"). vm_compute; reflexivity.
Defined.

Lemma run_crawl_no_duplicate_pages_witness :
  run_crawl site 10 site_cfg "s1" =
    Ok (fst (outcome (run_crawl site 10 site_cfg "s1")),
        snd (outcome (run_crawl site 10 site_cfg "s1"))) /\
  NoDup (map pr_url (snd (outcome (run_crawl site 10 site_cfg "s1")))) /\
  incl (map pr_url (snd (outcome (run_crawl site 10 site_cfg "s1"))))
       (visited (fst (outcome (run_crawl site 10 site_cfg "s1")))).
Proof.
  split; [vm_compute; reflexivity|].
  apply (run_crawl_no_duplicate_pages site 10 site_cfg "s1"). vm_compute; reflexivity.
Defined.

Lemma run_crawl_page_cap_witness :
  run_crawl site 10 site_cfg "s1" =
    Ok (fst (outcome (run_crawl site 10 site_cfg "s1")),
        snd (outcome (run_crawl site 10 site_cfg "s1"))) /\
  (Z.of_nat (length (snd (outcome (run_crawl site 10 site_cfg "s1")))) <=
     Z.max 0 (max_pages site_cfg))%Z.
Proof.
  split; [vm_compute; reflexivity|].
  apply (run_crawl_page_cap site 10 site_cfg "s1"
           (fst (outcome (run_crawl site 10 site_cfg "s1")))).
  vm_compute; reflexivity.
Defined.

Lemma run_crawl_pages_crawlable_witness :
  run_crawl site 10 site_cfg "s1" =
    Ok (fst (outcome (run_crawl site 10 site_cfg "s1")),
        snd (outcome (run_crawl site 10 site_cfg "s1"))) /\
  match snd (outcome (run_crawl site 10 site_cfg "s1")) with
  | [] => True
  | p :: rest =>
      exists pp start, Url.urlparse (url site_cfg) = Ok pp /\
        _normalize_url (url site_cfg) = Ok start /\ pr_url p = start /\ depth p = 0%Z /\
        Forall (fun r => _is_crawlable (Url.pr_netloc pp) (pr_url r) = Ok true /\
                         _normalize_url (pr_url r) = Ok (pr_url r)) rest
  end.
Proof.
  split; [vm_compute; reflexivity|].
  apply (run_crawl_pages_crawlable site 10 site_cfg "s1"
           (fst (outcome (run_crawl site 10 site_cfg "s1")))).
  vm_compute; reflexivity.
Defined.

Lemma run_crawl_page_shape_witness :
  run_crawl site 10 site_cfg "s1" =
    Ok (fst (outcome (run_crawl site 10 site_cfg "s1")),
        snd (outcome (run_crawl site 10 site_cfg "s1"))) /\
  Forall (page_shape site) (snd (outcome (run_crawl site 10 site_cfg "s1"))).
Proof.
  split; [vm_compute; reflexivity|].
  apply (run_crawl_page_shape site 10 site_cfg "s1"
           (fst (outcome (run_crawl site 10 site_cfg "s1")))).
  vm_compute; reflexivity.
Defined.

Lemma run_crawl_element_page_witness :
  run_crawl site 10 site_cfg "s1" =
    Ok (fst (outcome (run_crawl site 10 site_cfg "s1")),
        snd (outcome (run_crawl site 10 site_cfg "s1"))) /\
  Forall (fun p => exists t, t <> Some EmptyString /\
            Forall (fun el => page_url el = pr_url p /\
                      page_title el = t /\ notes el = None) (elements p))
    (snd (outcome (run_crawl site 10 site_cfg "s1"))).
Proof.
  split; [vm_compute; reflexivity|].
  apply (run_crawl_element_page site 10 site_cfg "s1"
           (fst (outcome (run_crawl site 10 site_cfg "s1")))).
  vm_compute; reflexivity.
Defined.

Lemma created_scan_limits_witness :
  run_crawl site 10 (create_scan_config pharma_request) "s1" =
    Ok (fst (outcome (run_crawl site 10 (create_scan_config pharma_request) "s1")),
        snd (outcome (run_crawl site 10 (create_scan_config pharma_request) "s1"))) /\
  (length (snd (outcome (run_crawl site 10 (create_scan_config pharma_request) "s1")))
     <= 1000)%nat /\
  Forall (fun p => (0 <= depth p <= 20)%Z)
    (snd (outcome (run_crawl site 10 (create_scan_config pharma_request) "s1"))).
Proof.
  split; [vm_compute; reflexivity|].
  apply (created_scan_limits site 10 pharma_request "s1"
           (fst (outcome (run_crawl site 10 (create_scan_config pharma_request) "s1")))).
  vm_compute; reflexivity.
Defined.

Lemma robots_url_at_root_witness :
  Url.urlparse "https://example.com/" = Ok example_parsed /\
  Robots.urljoin_abs_path "https://example.com/" "/robots.txt" =
    Ok (Url.pr_scheme example_parsed ++ "://" ++ Url.pr_netloc example_parsed
        ++ "/robots.txt").
Proof.
  split; [vm_compute; reflexivity|].
  apply robots_url_at_root; [vm_compute; reflexivity | vm_compute; reflexivity |].
  vm_compute. discriminate.
Defined.

Lemma check_robots_txt_cases_witness :
  Robots.check_robots_txt private_site "https://example.com/private" "/private" =
    Ok (robots_outcome (Robots.check_robots_txt private_site
                          "https://example.com/private" "/private")) /\
  allowed (robots_outcome (Robots.check_robots_txt private_site
                             "https://example.com/private" "/private")) = false /\
  ((robots_outcome (Robots.check_robots_txt private_site
                      "https://example.com/private" "/private") = Robots.not_found_result \/
    exists u content,
      Robots.urljoin_abs_path "https://example.com/private" "/robots.txt" = Ok u /\
      robots_fetch private_site u = RobotsHttp 200 content /\
      found (robots_outcome (Robots.check_robots_txt private_site
                               "https://example.com/private" "/private")) = true /\
      allowed (robots_outcome (Robots.check_robots_txt private_site
                                 "https://example.com/private" "/private")) =
        robots_is_allowed private_site content user_agent "/private") /\
   Forall (fun p => p <> EmptyString)
     (disallowed_paths (robots_outcome (Robots.check_robots_txt private_site
                                          "https://example.com/private" "/private")))).
Proof.
  split; [vm_compute; reflexivity|].
  split; [vm_compute; reflexivity|].
  apply check_robots_txt_cases. vm_compute; reflexivity.
Defined.

Lemma try_click_text_clicked_witness :
  Consent._try_click_text text_banner Consent.ACCEPT_TEXT_PATTERNS = true /\
  exists text tag c w h, In text Consent.ACCEPT_TEXT_PATTERNS /\
    In tag ["button"; "a"; "span"; "div"] /\
    In c (firstn 3 (locate text_banner tag text)) /\ cand_visible c = true /\
    cand_box c = Some (w, h) /\ (30 < w)%Q /\ (15 < h)%Q /\ cand_click_ok c = true.
Proof.
  split; [vm_compute; reflexivity|].
  apply try_click_text_clicked. vm_compute; reflexivity.
Defined.

Lemma try_click_selectors_clicked_witness :
  Consent._try_click_selectors onetrust_banner Consent.ACCEPT_SELECTORS = true /\
  exists pre sel post, Consent.ACCEPT_SELECTORS = (pre ++ sel :: post)%list /\
    query onetrust_banner sel = QElem true true /\
    Forall (fun s => query onetrust_banner s <> QElem true true) pre.
Proof.
  split; [vm_compute; reflexivity|].
  apply try_click_selectors_clicked. vm_compute; reflexivity.
Defined.

Lemma custom_label_is_keyword_witness :
  Extractor.detect_tag_context (Some "Read our cookie policy") None "Compliance"
    (Some ["cookie policy"]) = Some "cookie policy" /\
  exists kws, Some ["cookie policy"] = Some kws /\ In "cookie policy" kws.
Proof.
  split; [vm_compute; reflexivity|].
  apply (custom_label_is_keyword (Some "Read our cookie policy") None "Compliance");
    vm_compute; reflexivity.
Defined.

Lemma get_scan_summary_witness :
  get_scan true None stored_rows (Some " Link , ,BUTTON") =
    Ok (scan_view (Some " Link , ,BUTTON")) /\
  sum_total_elements (snd (scan_view (Some " Link , ,BUTTON"))) =
    Z.of_nat (length stored_rows) /\
  NoDup (map fst (sum_by_type (snd (scan_view (Some " Link , ,BUTTON"))))) /\
  (forall t, get_count t (sum_by_type (snd (scan_view (Some " Link , ,BUTTON")))) =
     rows_of_type t stored_rows) /\
  sumZ (map snd (sum_by_type (snd (scan_view (Some " Link , ,BUTTON"))))) =
    sum_total_elements (snd (scan_view (Some " Link , ,BUTTON"))) /\
  sum_pharma_flagged (snd (scan_view (Some " Link , ,BUTTON"))) =
    Z.of_nat (length (filter (fun el => negb (is_falsy_str (pharma_context el)))
                        stored_rows)).
Proof.
  split; [vm_compute; reflexivity|].
  apply (get_scan_summary None stored_rows (Some " Link , ,BUTTON")
           (fst (scan_view (Some " Link , ,BUTTON")))).
  vm_compute; reflexivity.
Defined.

Lemma get_scan_hide_types_witness :
  get_scan true None stored_rows (Some " Link , ,BUTTON") =
    Ok (scan_view (Some " Link , ,BUTTON")) /\
  fst (scan_view (Some " Link , ,BUTTON")) =
    filter (fun el => negb (mem_str (lower (element_type el))
                              (excluded_types (Some " Link , ,BUTTON")))) stored_rows /\
  (excluded_types (Some " Link , ,BUTTON") = [] ->
     fst (scan_view (Some " Link , ,BUTTON")) = stored_rows) /\
  (forall x, In x (excluded_types (Some " Link , ,BUTTON")) <->
     exists h piece, Some " Link , ,BUTTON" = Some h /\ In piece (split_on "," h) /\
       strip piece <> EmptyString /\ x = lower (strip piece)).
Proof.
  split; [vm_compute; reflexivity|].
  apply (get_scan_hide_types None stored_rows (Some " Link , ,BUTTON") _
           (snd (scan_view (Some " Link , ,BUTTON")))).
  vm_compute; reflexivity.
Defined.

Lemma run_scan_pages_fail_witness :
  run_crawl site 10 site_cfg "s1" =
    Ok (fst (outcome (run_crawl site 10 site_cfg "s1")),
        first_page (run_crawl site 10 site_cfg "s1") ::
        tl (snd (outcome (run_crawl site 10 site_cfg "s1")))) /\
  _run_scan site 10 "s1" site_cfg =
    Ok [SetScanStatus "running";
        SetScanFailed "'PageResult' object has no attribute 'analytics'"].
Proof.
  split; [vm_compute; reflexivity|].
  apply (run_scan_pages_fail site 10 site_cfg "s1"
           (fst (outcome (run_crawl site 10 site_cfg "s1")))
           (first_page (run_crawl site 10 site_cfg "s1"))
           (tl (snd (outcome (run_crawl site 10 site_cfg "s1"))))).
  vm_compute; reflexivity.
Defined.

Lemma run_scan_stores_no_element_witness :
  _run_scan private_site 10 "s1" private_cfg =
    Ok (scan_writes (_run_scan private_site 10 "s1" private_cfg)) /\
  exists w, scan_writes (_run_scan private_site 10 "s1" private_cfg) =
              [SetScanStatus "running"; w] /\
    match w with
    | SetScanFailed _ => True
    | SetScanResults _ n t _ _ _ _ _ _ _ => n = 0%Z /\ t = 0%Z
    | _ => False
    end.
Proof.
  split; [vm_compute; reflexivity|].
  apply (run_scan_stores_no_element private_site 10 "s1" private_cfg).
  vm_compute; reflexivity.
Defined.

Lemma normalize_url_no_fragment_witness :
  _normalize_url "https://example.com/a/#top" = Ok "https://example.com/a" /\
  has_char "#" "https://example.com/a" = false /\
  ends_with_char "/" "https://example.com/a" = false.
Proof.
  split; [vm_compute; reflexivity|].
  apply (normalize_url_no_fragment "https://example.com/a/#top").
  vm_compute; reflexivity.
Defined.

End ExtraWitnesses.
